(** * dweather_client.arithmetic: period sums and averages of daily weather data

    A shallow embedding of [dweather_client/arithmetic.py] and proofs of the
    properties its specification states about it.

    Conventions of the embedding:
    - Python [int] is [Z]; [len] is a [nat].
    - Python [float] values (rainfall in mm, caps, sums) are exact rationals
      [Q]: rounding, infinities and signed zeros are not modelled.  [NaN] only
      occurs in the pandas part, where a cell is an [option Q].
    - a raised exception is the [Raise] branch of [result]; the statements of a
      Python function are sequenced with [x <- e ;; k].
    - a Python [dict] is an association list in insertion order.
    - [datetime.date] is a record of year, month and day; the constructor's
      range check is [valid_date]. *)

From Stdlib Require Import Ascii String DecimalString.
From Stdlib Require Import ZArith QArith Qminmax List Sorted Bool Lia Lqa.
Import ListNotations.

Local Open Scope Z_scope.

(** ** datetime.date *)

Record date : Type := mkdate { year : Z; month : Z; day : Z }.

Definition date_eqb (a b : date) : bool :=
  (year a =? year b) && (month a =? month b) && (day a =? day b).

(** Lexicographic order on (year, month, day), the order of [date.__lt__]. *)
Definition date_ltb (a b : date) : bool :=
  (year a <? year b)
  || ((year a =? year b)
      && ((month a <? month b) || ((month a =? month b) && (day a <? day b)))).

Definition date_leb (a b : date) : bool := date_ltb a b || date_eqb a b.

Definition MINYEAR : Z := 1.
Definition MAXYEAR : Z := 9999.

Definition is_leap (y : Z) : bool :=
  (y mod 4 =? 0) && (negb (y mod 100 =? 0) || (y mod 400 =? 0)).

Definition days_in_month (y m : Z) : Z :=
  if m =? 2 then (if is_leap y then 29 else 28)
  else if (m =? 4) || (m =? 6) || (m =? 9) || (m =? 11) then 30
  else 31.

(** The check [datetime.date(y, m, d)] performs before it builds a date. *)
Definition valid_date (y m d : Z) : bool :=
  (MINYEAR <=? y) && (y <=? MAXYEAR)
  && (1 <=? m) && (m <=? 12)
  && (1 <=? d) && (d <=? days_in_month y m).

Definition date_ok (d : date) : bool := valid_date (year d) (month d) (day d).

(** ** Exceptions and results *)

Inductive key : Type :=
| DateKey (d : date)
| StrKey (s : string).

Inductive exn : Type :=
| KeyError (k : key)           (* [d[k]] on a missing key *)
| IndexError                   (* [l[-1]] on an empty list *)
| NameError (name : string)    (* a name bound nowhere *)
| ValueError                   (* an invalid calendar date *)
| DatasetError
| InputOutOfRangeError
| CoordinateNotFoundError
| DataMalformedError
| InvalidRangeError            (* a period whose end precedes its start *)
| OtherError (msg : string).   (* raised by a collaborator *)

Inductive result (A : Type) : Type :=
| Ok (a : A)
| Raise (e : exn).

Arguments Ok {A} a.
Arguments Raise {A} e.

Definition bind {A B : Type} (m : result A) (k : A -> result B) : result B :=
  match m with
  | Ok a => k a
  | Raise e => Raise e
  end.

Notation "x <- m ;; k" := (bind m (fun x => k))
  (at level 61, m at next level, right associativity).
Notation "' p <- m ;; k" := (bind m (fun x => match x with p => k end))
  (at level 61, p pattern, m at next level, right associativity).

(** A list comprehension [[f x for x in xs]] whose body may raise. *)
Fixpoint list_comp {A B : Type} (f : A -> result B) (xs : list A)
  : result (list B) :=
  match xs with
  | [] => Ok []
  | x :: xs' => y <- f x ;; ys <- list_comp f xs' ;; Ok (y :: ys)
  end.

(** [date.replace(year=y)]: same month and day in year [y]; [ValueError] when
    that is not a calendar date (29 February of a common year, or a year
    outside 1..9999).  For a year that does not fit a C int CPython raises
    [OverflowError] instead; the model does not tell the two apart. *)
Definition replace_year (d : date) (y : Z) : result date :=
  if valid_date y (month d) (day d)
  then Ok (mkdate y (month d) (day d))
  else Raise ValueError.

(** ** dict *)

Section Dict.
Context {K V : Type}.
Variable eqb : K -> K -> bool.

Definition dict : Type := list (K * V).

(** [list(d)]: the keys in insertion order. *)
Definition dict_keys (d : dict) : list K := map fst d.

Fixpoint dict_get (d : dict) (k : K) : option V :=
  match d with
  | [] => None
  | (k', v) :: d' => if eqb k' k then Some v else dict_get d' k
  end.

(** [k in d] *)
Definition dict_contains (d : dict) (k : K) : bool :=
  match dict_get d k with Some _ => true | None => false end.

(** [d[k] = v]: overwrite in place, or append a new key at the end. *)
Fixpoint dict_setitem (d : dict) (k : K) (v : V) : dict :=
  match d with
  | [] => [(k, v)]
  | (k', v') :: d' =>
      if eqb k' k then (k', v) :: d' else (k', v') :: dict_setitem d' k v
  end.
End Dict.

Arguments dict K V : clear implicits.

(** [d[date]] on a date-keyed dict. *)
Definition dict_getitem {V : Type} (d : dict date V) (k : date) : result V :=
  match dict_get date_eqb d k with
  | Some v => Ok v
  | None => Raise (KeyError (DateKey k))
  end.

(** [l[-1]] *)
Definition list_last {A : Type} (l : list A) : result A :=
  match rev l with
  | [] => Raise IndexError
  | x :: _ => Ok x
  end.

(** [range(lo, hi)] *)
Definition range (lo hi : Z) : list Z :=
  map (fun i => lo + Z.of_nat i) (seq 0 (Z.to_nat (hi - lo))).

(** ** Numbers *)

(** [min(a, b)] of the builtins: [b] when [b < a], else [a]. *)
Definition py_min (a b : Q) : Q := if Qle_bool a b then a else b.

(** [sum(xs)]: a left fold from [0]. *)
Definition py_sum (xs : list Q) : Q := fold_left Qplus xs 0%Q.

(** [bool(x)] of a float: zero is false. *)
Definition float_truth (x : Q) : bool := negb (Qeq_bool x 0).

(** ** Rainfall over a term (lines 13-96) *)

Definition HISTORICAL_START_YEAR : Z := 1981.

Section Rainfall.

(** The collaborators live in other modules of the package
    ([dweather_client.http_client], [dweather_client.utils]); the functions
    below are parametrised by them.  [get_rev_rainfall_dict] is called by
    name although the module does not import it: it is looked up among the
    module's globals when the call is made. *)
Variable get_rainfall_dict :
  forall (lat lon : Q) (dataset : string), result (dict date Q).
Variable get_rev_rainfall_dict :
  forall (lat lon : Q) (dataset : string) (end_date : date)
         (final_rev : option string), result (dict date Q * bool).
Variable listify_period :
  forall (start_date end_date : date), result (list date).

(** Lines 34-42 and 73-81, the same statements in both functions: the
    series to read, the end date to use from here on, and [is_final]. *)
Definition resolve_rainfall_dict (lat lon : Q) (dataset : string)
           (end_date : date) (use_prelim : bool) (final_rev : option string)
  : result (dict date Q * date * bool) :=
  if use_prelim then
    '(rainfall_dict, is_final) <-
      get_rev_rainfall_dict lat lon dataset end_date final_rev ;;
    if negb is_final && negb (dict_contains date_eqb rainfall_dict end_date)
    then end_date <- list_last (dict_keys rainfall_dict) ;;
         Ok (rainfall_dict, end_date, is_final)
    else Ok (rainfall_dict, end_date, is_final)
  else
    rainfall_dict <- get_rainfall_dict lat lon dataset ;;
    Ok (rainfall_dict, end_date, true).

(** Lines 44-47 and 91-94: the daily values of the dates of a term, each
    clipped to the cap when the cap is truthy. *)
Definition term_rain (rainfall_dict : dict date Q) (daily_cap : option Q)
           (dates : list date) : result (list Q) :=
  match daily_cap with
  | Some cap =>
      if float_truth cap
      then list_comp (fun date => v <- dict_getitem rainfall_dict date ;;
                                  Ok (py_min v cap)) dates
      else list_comp (fun date => dict_getitem rainfall_dict date) dates
  | None => list_comp (fun date => dict_getitem rainfall_dict date) dates
  end.

Definition sum_period_rainfall (lat lon : Q) (dataset : string)
           (start_date end_date : date) (daily_cap : option Q)
           (use_prelim : bool) (final_rev : option string)
  : result (Q * nat * bool) :=
  '(rainfall_dict, end_date, is_final) <-
    resolve_rainfall_dict lat lon dataset end_date use_prelim final_rev ;;
  dates <- listify_period start_date end_date ;;
  rain <- term_rain rainfall_dict daily_cap dates ;;
  Ok (py_sum rain, List.length rain, is_final).

(** Lines 87-95, the body of the loop: the value stored under [y]. *)
Definition year_entry (rainfall_dict : dict date Q)
           (start_date end_date : date) (daily_cap : option Q) (y : Z)
  : result (Q * nat) :=
  historical_start <- replace_year start_date y ;;
  historical_end <-
    replace_year end_date (y + (year end_date - year start_date)) ;;
  year_term <- listify_period historical_start historical_end ;;
  yearly_rain <- term_rain rainfall_dict daily_cap year_term ;;
  Ok (py_sum yearly_rain, List.length yearly_rain).

(** Line 86: the loop over the years, threading [yearly_rainfall]. *)
Fixpoint for_year_in (years : list Z) (rainfall_dict : dict date Q)
         (start_date end_date : date) (daily_cap : option Q)
         (yearly_rainfall : dict Z (Q * nat)) : result (dict Z (Q * nat)) :=
  match years with
  | [] => Ok yearly_rainfall
  | y :: years' =>
      entry <- year_entry rainfall_dict start_date end_date daily_cap y ;;
      for_year_in years' rainfall_dict start_date end_date daily_cap
        (dict_setitem Z.eqb yearly_rainfall y entry)
  end.

(** [start_year] defaults to [HISTORICAL_START_YEAR] and [end_year] to
    [None] at the call site. *)
Definition build_historical_rainfall_dict (lat lon : Q) (dataset : string)
           (start_date end_date : date) (daily_cap : option Q)
           (start_year : Z) (end_year : option Z)
           (use_prelim : bool) (final_rev : option string)
  : result (dict Z (Q * nat) * bool) :=
  '(rainfall_dict, end_date, is_final) <-
    resolve_rainfall_dict lat lon dataset end_date use_prelim final_rev ;;
  let end_year :=
    match end_year with
    | None => year start_date
    | Some e => e
    end in
  yearly_rainfall <-
    for_year_in (range start_year (end_year + 1)) rainfall_dict
      start_date end_date daily_cap [] ;;
  Ok (yearly_rainfall, is_final).

End Rainfall.

(** ** The period lister *)

Module Utils.

Definition next_day (d : date) : date :=
  if day d <? days_in_month (year d) (month d)
  then mkdate (year d) (month d) (day d + 1)
  else if month d <? 12
       then mkdate (year d) (month d + 1) 1
       else mkdate (year d + 1) 1 1.

Fixpoint days_from (d : date) (n : nat) : list date :=
  match n with
  | O => []
  | S n' => d :: days_from (next_day d) n'
  end.

Definition days_before_year (y : Z) : Z :=
  let p := y - 1 in p * 365 + p / 4 - p / 100 + p / 400.

Definition days_before_month (y m : Z) : Z :=
  fold_left Z.add (map (days_in_month y) (range 1 m)) 0.

(** [date.toordinal()]: days since 0001-01-01, counted from 1. *)
Definition toordinal (d : date) : Z :=
  days_before_year (year d) + days_before_month (year d) (month d) + day d.

(** Modelled from the spec: [dweather_client.utils.listify_period] is
    imported by the module but its source is not at hand.  Section 4.1: every
    calendar date from the start to the end, both included, in ascending
    order; [InvalidRangeError] when the end precedes the start. *)
Definition listify_period (start_date end_date : date) : result (list date) :=
  if date_ltb end_date start_date
  then Raise InvalidRangeError
  else Ok (days_from start_date
             (Z.to_nat (toordinal end_date - toordinal start_date + 1))).

End Utils.

(** ** Period tables (lines 99-163) *)

(** A float cell of a pandas column: [None] is NaN. *)
Definition cell : Type := option Q.

(** [Series.sum()]: NaN cells are skipped and an empty selection sums to 0. *)
Definition series_sum (s : list cell) : cell :=
  Some (fold_left
          (fun acc c => match c with Some q => (acc + q)%Q | None => acc end)
          s 0%Q).

Definition count_valid (s : list cell) : nat :=
  List.length
    (filter (fun c : cell => match c with Some _ => true | None => false end) s).

(** [Series.mean()]: the mean of the cells that are not NaN, and NaN when
    there is none. *)
Definition series_mean (s : list cell) : cell :=
  match count_valid s with
  | O => None
  | S _ =>
      match series_sum s with
      | Some t => Some (t / inject_Z (Z.of_nat (count_valid s)))%Q
      | None => None
      end
  end.

(** [str(n)] of an int. *)
Definition str (n : Z) : string := NilZero.string_of_int (Z.to_int n).

Section PeriodTables.

(** The pandas operations the two functions use, at their boundary:
    [df[left:right]] with two date strings, and [chunk[peril]]. *)
Context {DataFrame : Type}.
Variable df_slice : DataFrame -> string -> string -> result DataFrame.
Variable df_column : DataFrame -> string -> result (list cell).

(** Lines 119-124 and 153-158: [(left, right)] for the year [y]. *)
Definition period_bounds (ps pe : date) (y : Z) : string * string :=
  if year ps <? year pe
  then (str y ++ "-" ++ str (month ps) ++ "-" ++ str (day ps),
        str (y + 1) ++ "-" ++ str (month pe) ++ "-" ++ str (day pe))%string
  else (str y ++ "-" ++ str (month ps) ++ "-" ++ str (day ps),
        str y ++ "-" ++ str (month pe) ++ "-" ++ str (day pe))%string.

(** Lines 126 and 128 (160 and 162): the value appended for the year [y]. *)
Definition year_value (reduce : list cell -> cell) (newdf : DataFrame)
           (ps pe : date) (peril : string) (y : Z) : result cell :=
  let bounds := period_bounds ps pe y in
  sumChunk <- df_slice newdf (fst bounds) (snd bounds) ;;
  column <- df_column sumChunk peril ;;
  Ok (reduce column).

(** Lines 118-128 and 152-162: the loop of both functions, which differ in
    the reduction of the column only.  [years] and [values] are the two
    numpy arrays, appended to at each turn. *)
Fixpoint for_period_year (reduce : list cell -> cell) (yrange : list Z)
         (newdf : DataFrame) (ps pe : date) (peril : string)
         (years : list Z) (values : list cell)
  : result (list Z * list cell) :=
  match yrange with
  | [] => Ok (years, values)
  | y :: yrange' =>
      v <- year_value reduce newdf ps pe peril y ;;
      for_period_year reduce yrange' newdf ps pe peril
        (years ++ [y]) (values ++ [v])
  end.

(** The returned frame, indexed by year: its rows in order.  (numpy stores
    the years as floats; they are whole numbers.) *)
Definition sum_period_df (df : DataFrame) (ps pe : date) (yrs : Z)
           (peril : string) : result (list (Z * cell)) :=
  '(years, sums) <-
    for_period_year series_sum (range (year ps - yrs) (year ps))
      df ps pe peril [] [] ;;
  Ok (combine years sums).

Definition avg_period_df (df : DataFrame) (ps pe : date) (yrs : Z)
           (peril : string) : result (list (Z * cell)) :=
  '(years, avgs) <-
    for_period_year series_mean (range (year ps - yrs) (year ps))
      df ps pe peril [] [] ;;
  Ok (combine years avgs).

End PeriodTables.

(** A date-sorted daily table, the input the two functions are documented
    for ("weather data with a daily index"): slicing by two date strings keeps
    the rows between the two dates, both included, and is empty when no row
    lies there. *)
Module DenseTable.

Record t : Type := mk { columns : list string; rows : list (date * list cell) }.

Fixpoint split_dash (s : string) (cur : string) : list string :=
  match s with
  | EmptyString => [cur]
  | String c s' =>
      if Ascii.eqb c "-"%char
      then cur :: split_dash s' EmptyString
      else split_dash s' (cur ++ String c EmptyString)%string
  end.

Definition parse_num (s : string) : option Z :=
  match NilEmpty.uint_of_string s with
  | Some u => Some (Z.of_uint u)
  | None => None
  end.

(** A string of the form year-month-day naming a calendar date.  What
    pandas raises on any other string, or on a date it cannot represent, is
    not modelled: here it is [ValueError]. *)
Definition parse_date (s : string) : result date :=
  match map parse_num (split_dash s EmptyString) with
  | [Some y; Some m; Some d] =>
      if valid_date y m d then Ok (mkdate y m d) else Raise ValueError
  | _ => Raise ValueError
  end.

Definition slice (df : t) (left right : string) : result t :=
  lo <- parse_date left ;;
  hi <- parse_date right ;;
  Ok (mk (columns df)
         (filter (fun r => date_leb lo (fst r) && date_leb (fst r) hi)
                 (rows df))).

Fixpoint index_of (name : string) (cols : list string) : option nat :=
  match cols with
  | [] => None
  | c :: cols' =>
      if String.eqb c name then Some O
      else match index_of name cols' with
           | Some i => Some (S i)
           | None => None
           end
  end.

Definition column (df : t) (name : string) : result (list cell) :=
  match index_of name (columns df) with
  | Some i => Ok (map (fun r => nth i (snd r) None) (rows df))
  | None => Raise (KeyError (StrKey name))
  end.

End DenseTable.

(** ** Vocabulary of the statements *)

(** What a daily value contributes to a total under [daily_cap]. *)
Definition capped (daily_cap : option Q) (v : Q) : Q :=
  match daily_cap with
  | Some cap => if float_truth cap then py_min v cap else v
  | None => v
  end.


(** [end_year] once its default is resolved (lines 83-85). *)
Definition end_year_or_default (start_date : date) (end_year : option Z) : Z :=
  match end_year with
  | None => year start_date
  | Some e => e
  end.

Definition is_feb29 (d : date) : bool := (month d =? 2) && (day d =? 29).

(** The dates of the term replayed in the year [y]: the start date moved to
    [y], the end date moved by as many years. *)
Definition year_term (listify_period : date -> date -> result (list date))
           (start_date end_date : date) (y : Z) : result (list date) :=
  historical_start <- replace_year start_date y ;;
  historical_end <-
    replace_year end_date (y + (year end_date - year start_date)) ;;
  listify_period historical_start historical_end.


(** The least and the greatest argument that [date.replace] converts to a C
    int; beyond them it raises [OverflowError], which is not modelled. *)
Definition INT_MIN : Z := - 2 ^ 31.
Definition INT_MAX : Z := 2 ^ 31 - 1.

(** Two results agree up to [R]: both return, with values related by [R],
    or both raise the same exception. *)
Definition result_rel {A B : Type} (R : A -> B -> Prop)
           (r1 : result A) (r2 : result B) : Prop :=
  match r1, r2 with
  | Ok a, Ok b => R a b
  | Raise e1, Raise e2 => e1 = e2
  | _, _ => False
  end.

(** A total, a number of days and a flag, against another: at most the
    total, the same number of days, the same flag. *)
Definition total_le (r' r : Q * nat * bool) : Prop :=
  (fst (fst r') <= fst (fst r))%Q /\ snd (fst r') = snd (fst r) /\ snd r' = snd r.

(** The same for a historical dict: the same years in the same order, each
    with at most the total and the same number of days, and the same flag. *)
Definition history_le (r' r : dict Z (Q * nat) * bool) : Prop :=
  Forall2 (fun a' a => fst a' = fst a
                       /\ (fst (snd a') <= fst (snd a))%Q
                       /\ snd (snd a') = snd (snd a))
          (fst r') (fst r)
  /\ snd r' = snd r.

(** ** Sample data *)

Module Sample.

(** A preliminary series that ends on 3 January 2020. *)
Definition series : dict date Q :=
  [ (mkdate 2020 1 1, 4%Q); (mkdate 2020 1 2, 12%Q); (mkdate 2020 1 3, 7%Q) ].

(** A series over the turn of the years 2000 and 2001 and over the first
    days of June of 2000 to 2002, one millimetre a day. *)
Definition wide_series : dict date Q :=
  match Utils.listify_period (mkdate 2000 12 25) (mkdate 2001 1 5),
        Utils.listify_period (mkdate 2000 6 1) (mkdate 2000 6 10),
        Utils.listify_period (mkdate 2001 6 1) (mkdate 2001 6 10),
        Utils.listify_period (mkdate 2002 6 1) (mkdate 2002 6 10) with
  | Ok a, Ok b, Ok c, Ok d => map (fun x => (x, 1%Q)) (b ++ a ++ c ++ d)
  | _, _, _, _ => []
  end.

(** Every day from 1 June 2000 to 10 June 2002, one millimetre a day. *)
Definition long_series : dict date Q :=
  match Utils.listify_period (mkdate 2000 6 1) (mkdate 2002 6 10) with
  | Ok ds => map (fun x => (x, 1%Q)) ds
  | Raise _ => []
  end.

Definition get_rainfall_dict (s : dict date Q) (lat lon : Q) (dataset : string)
  : result (dict date Q) := Ok s.

Definition get_rev_rainfall_dict (s : dict date Q) (is_final : bool)
           (lat lon : Q) (dataset : string) (end_date : date)
           (final_rev : option string) : result (dict date Q * bool) :=
  Ok (s, is_final).

(** A daily table with one column and a single row, on 5 June 2020. *)
Definition table : DenseTable.t :=
  DenseTable.mk ["rain"%string] [ (mkdate 2020 6 5, [Some 3%Q]) ].

(** Ten days of June 2019 with 5 mm each. *)
Definition june_table : DenseTable.t :=
  DenseTable.mk ["rain"%string]
    (match Utils.listify_period (mkdate 2019 6 1) (mkdate 2019 6 10) with
     | Ok ds => map (fun x => (x, [Some 5%Q])) ds
     | Raise _ => []
     end).

End Sample.

(** * Properties *)

(** ** Results and comprehensions *)

Lemma bind_Ok_inv {A B : Type} (m : result A) (k : A -> result B) (b : B) :
  bind m k = Ok b -> exists a, m = Ok a /\ k a = Ok b.
Proof.
  destruct m as [a | e]; simpl; intro H.
  - exists a; split; [reflexivity | exact H].
  - discriminate H.
Qed.

Ltac inv_bind H :=
  let a := fresh "a" in
  let Ha := fresh "Ha" in
  apply bind_Ok_inv in H; destruct H as (a & Ha & H).

Tactic Notation "bind_inv" hyp(H) "as" simple_intropattern(a) ident(Ha) :=
  apply bind_Ok_inv in H; destruct H as (a & Ha & H).

Lemma list_comp_Forall2 {A B : Type} (f : A -> result B) (xs : list A) :
  forall ys, list_comp f xs = Ok ys -> Forall2 (fun x y => f x = Ok y) xs ys.
Proof.
  induction xs as [| x xs IH]; simpl; intros ys H.
  - injection H as <-. constructor.
  - inv_bind H. inv_bind H. injection H as <-.
    constructor; [assumption | apply IH; assumption].
Qed.

Lemma list_comp_length {A B : Type} (f : A -> result B) (xs : list A) :
  forall ys, list_comp f xs = Ok ys -> List.length ys = List.length xs.
Proof.
  intros ys H. apply list_comp_Forall2 in H.
  symmetry. eapply Forall2_length; eassumption.
Qed.

(** A comprehension raises what its first failing element raises. *)
Lemma list_comp_raises {A B : Type} (f : A -> result B) (xs : list A) :
  (exists x, In x xs /\ forall y, f x <> Ok y) ->
  exists x e, In x xs /\ f x = Raise e /\ list_comp f xs = Raise e.
Proof.
  induction xs as [| x xs IH]; intros (x0 & Hin & Hbad).
  - destruct Hin.
  - simpl. destruct (f x) as [y | e] eqn:Hfx.
    + destruct Hin as [-> | Hin]; [exfalso; eapply Hbad; eassumption |].
      destruct IH as (x1 & e & Hin1 & Hf1 & Hl); [exists x0; auto |].
      exists x1, e. simpl. rewrite Hl. auto.
    + exists x, e. simpl. auto.
Qed.

Lemma list_comp_all_or_raise {A B : Type} (f : A -> result B) (xs : list A) :
  (exists ys, list_comp f xs = Ok ys)
  \/ (exists x, In x xs /\ forall y, f x <> Ok y).
Proof.
  induction xs as [| x xs IH]; simpl.
  - left. eauto.
  - destruct (f x) as [y | e] eqn:Hfx.
    + destruct IH as [(ys & ->) | (x0 & Hin & Hbad)].
      * left. simpl. eauto.
      * right. exists x0. auto.
    + right. exists x. split; [auto |]. intros y. rewrite Hfx. discriminate.
Qed.

Lemma list_comp_ext {A B : Type} (f g : A -> result B) (xs : list A) :
  (forall x, f x = g x) -> list_comp f xs = list_comp g xs.
Proof.
  intro H. induction xs as [| x xs IH]; simpl; [reflexivity |].
  rewrite H, IH. reflexivity.
Qed.

(** ** Lists and ranges *)


Lemma In_range (lo hi y : Z) : In y (range lo hi) <-> lo <= y < hi.
Proof.
  unfold range. rewrite in_map_iff. split.
  - intros (i & <- & Hi). apply in_seq in Hi. lia.
  - intro H. exists (Z.to_nat (y - lo)). split; [lia |].
    apply in_seq. lia.
Qed.

Lemma length_range (lo hi : Z) : List.length (range lo hi) = Z.to_nat (hi - lo).
Proof. unfold range. rewrite length_map, length_seq. reflexivity. Qed.

Lemma range_sorted (lo hi : Z) : StronglySorted Z.lt (range lo hi).
Proof.
  unfold range. generalize (Z.to_nat (hi - lo)) as n, 0%nat as s.
  induction n as [| n IH]; intro s; simpl; constructor.
  - apply IH.
  - apply Forall_forall. intros y Hy.
    apply in_map_iff in Hy. destruct Hy as (i & <- & Hi).
    apply in_seq in Hi. lia.
Qed.

Lemma sorted_NoDup (l : list Z) : StronglySorted Z.lt l -> NoDup l.
Proof.
  induction 1 as [| x l _ IH Hall]; constructor; [| exact IH].
  intro Hin. rewrite Forall_forall in Hall. specialize (Hall x Hin). lia.
Qed.

Lemma NoDup_range (lo hi : Z) : NoDup (range lo hi).
Proof. apply sorted_NoDup, range_sorted. Qed.

(** ** dict *)

Lemma dict_setitem_fresh {V : Type} (d : dict Z V) (k : Z) (v : V) :
  ~ In k (dict_keys d) -> dict_setitem Z.eqb d k v = d ++ [(k, v)].
Proof.
  induction d as [| [k' v'] d IH]; simpl; intro H; [reflexivity |].
  destruct (Z.eqb_spec k' k) as [-> | _]; [exfalso; auto |].
  rewrite IH by auto. reflexivity.
Qed.

Lemma dict_keys_combine {V : Type} (ks : list Z) (vs : list V) :
  List.length vs = List.length ks -> dict_keys (combine ks vs) = ks.
Proof.
  revert vs. induction ks as [| k ks IH]; intros [| v vs]; simpl;
    try reflexivity; try discriminate.
  intro H. unfold dict_keys in *. simpl. f_equal. apply IH. lia.
Qed.

Lemma dict_get_combine {V : Type} (P : Z -> V -> Prop) (ks : list Z) :
  forall vs, Forall2 P ks vs ->
  forall k, In k ks -> exists v, dict_get Z.eqb (combine ks vs) k = Some v /\ P k v.
Proof.
  induction 1 as [| k0 v0 ks vs H0 _ IH]; intros k Hin; [destruct Hin |].
  simpl. destruct (Z.eqb_spec k0 k) as [<- | Hne].
  - exists v0. auto.
  - destruct Hin as [-> | Hin]; [contradiction | apply IH; assumption].
Qed.

Lemma dict_contains_In {V : Type} (d : dict date V) (k : date) :
  dict_contains date_eqb d k = true -> exists v, dict_getitem d k = Ok v.
Proof.
  unfold dict_contains, dict_getitem.
  destruct (dict_get date_eqb d k) as [v |]; [eauto | discriminate].
Qed.

Lemma dict_missing_raises {V : Type} (d : dict date V) (k : date) :
  dict_contains date_eqb d k = false ->
  dict_getitem d k = Raise (KeyError (DateKey k)).
Proof.
  unfold dict_contains, dict_getitem.
  destruct (dict_get date_eqb d k); [discriminate | reflexivity].
Qed.

Lemma Forall2_combine_In {A B : Type} (P : A -> B -> Prop) (xs : list A) (ys : list B) :
  Forall2 P xs ys -> forall x y, In (x, y) (combine xs ys) -> P x y.
Proof.
  induction 1 as [| x0 y0 xs ys H0 _ IH]; intros x y Hin; [destruct Hin |].
  destruct Hin as [Heq | Hin]; [injection Heq as <- <-; exact H0 | eauto].
Qed.

(** ** Term totals *)

Lemma term_rain_capped (d : dict date Q) (daily_cap : option Q) (dates : list date) :
  term_rain d daily_cap dates
  = list_comp (fun date => v <- dict_getitem d date ;; Ok (capped daily_cap v)) dates.
Proof.
  unfold term_rain, capped.
  destruct daily_cap as [cap |]; [destruct (float_truth cap) |];
    try reflexivity;
    apply list_comp_ext; intro x; destruct (dict_getitem d x); reflexivity.
Qed.

Lemma term_rain_present (d : dict date Q) (daily_cap : option Q) (dates : list date) :
  (forall x, In x dates -> dict_contains date_eqb d x = true) ->
  exists rain,
    term_rain d daily_cap dates = Ok rain
    /\ Forall2 (fun x r => exists v, dict_getitem d x = Ok v /\ r = capped daily_cap v)
               dates rain.
Proof.
  rewrite term_rain_capped.
  induction dates as [| x dates IH]; intro H.
  - exists []. split; [reflexivity | constructor].
  - destruct IH as (rain & Hr & HF); [intros; apply H; right; assumption |].
    destruct (dict_contains_In d x (H x (or_introl eq_refl))) as (v & Hv).
    exists (capped daily_cap v :: rain). simpl. rewrite Hv. simpl. rewrite Hr.
    split; [reflexivity | constructor; eauto].
Qed.

Lemma term_rain_Ok (d : dict date Q) (daily_cap : option Q) (dates : list date) :
  forall rain, term_rain d daily_cap dates = Ok rain ->
  Forall2 (fun x r => exists v, dict_getitem d x = Ok v /\ r = capped daily_cap v)
          dates rain.
Proof.
  rewrite term_rain_capped. intros rain H.
  apply list_comp_Forall2 in H.
  induction H as [| x r dates rain Hx _ IH]; constructor; [| exact IH].
  inv_bind Hx. injection Hx as <-. eauto.
Qed.

Lemma term_rain_missing (d : dict date Q) (daily_cap : option Q) (dates : list date) :
  (exists x, In x dates /\ dict_contains date_eqb d x = false) ->
  exists x, In x dates /\ dict_contains date_eqb d x = false
            /\ term_rain d daily_cap dates = Raise (KeyError (DateKey x)).
Proof.
  rewrite term_rain_capped. intros (x0 & Hin & Hmiss).
  destruct (list_comp_raises
              (fun date => v <- dict_getitem d date ;; Ok (capped daily_cap v)) dates)
    as (x & e & Hx & He & Hl).
  - exists x0. split; [assumption |]. intros y.
    rewrite (dict_missing_raises d x0 Hmiss). discriminate.
  - exists x. unfold dict_getitem, dict_contains in *.
    destruct (dict_get date_eqb d x) as [v |]; simpl in He; [discriminate |].
    injection He as <-. auto.
Qed.

Lemma py_min_le_cap (v c : Q) : (py_min v c <= c)%Q.
Proof.
  unfold py_min. destruct (Qle_bool v c) eqn:H.
  - apply Qle_bool_iff. exact H.
  - apply Qle_refl.
Qed.

Lemma py_min_below (v c : Q) : (v <= c)%Q -> py_min v c = v.
Proof.
  unfold py_min. intro H. apply Qle_bool_iff in H. rewrite H. reflexivity.
Qed.



Lemma replace_year_Ok (d : date) (y : Z) :
  forall d', replace_year d y = Ok d' -> d' = mkdate y (month d) (day d).
Proof.
  unfold replace_year. intros d' H.
  destruct (valid_date y (month d) (day d)); [| discriminate H].
  injection H as <-. reflexivity.
Qed.

Lemma replace_year_cases (d : date) (y : Z) :
  replace_year d y = Ok (mkdate y (month d) (day d))
  \/ replace_year d y = Raise ValueError.
Proof. unfold replace_year. destruct (valid_date _ _ _); auto. Qed.

(** 29 February does not exist in a common year. *)
Lemma replace_year_feb29 (d : date) (y : Z) :
  is_feb29 d = true -> is_leap y = false -> replace_year d y = Raise ValueError.
Proof.
  unfold is_feb29, replace_year, valid_date, days_in_month. intros Hd Hy.
  apply andb_true_iff in Hd. destruct Hd as [Hm Hday].
  apply Z.eqb_eq in Hm. apply Z.eqb_eq in Hday.
  rewrite Hm, Hday, Hy. cbn. rewrite !andb_false_r. reflexivity.
Qed.

(** Every other date exists in every year from 1 to 9999. *)
Lemma replace_year_total (d : date) (y : Z) :
  date_ok d = true ->
  MINYEAR <= y <= MAXYEAR ->
  is_feb29 d = false \/ is_leap y = true ->
  replace_year d y = Ok (mkdate y (month d) (day d)).
Proof.
  unfold date_ok, replace_year, valid_date, is_feb29.
  intros Hok Hy Hcase.
  repeat (apply andb_true_iff in Hok; destruct Hok as [Hok ?]).
  assert (Hdim : (day d <=? days_in_month y (month d)) = true).
  { unfold days_in_month in *.
    destruct (Z.eqb_spec (month d) 2) as [Hm | Hm]; [| assumption].
    destruct (is_leap y).
    - destruct (is_leap (year d)); apply Z.leb_le; apply Z.leb_le in H; lia.
    - destruct Hcase as [Hcase | Hcase]; [| discriminate Hcase].
      simpl in Hcase. apply Z.eqb_neq in Hcase.
      destruct (is_leap (year d)); apply Z.leb_le; apply Z.leb_le in H; lia. }
  destruct Hy as [Hlo Hhi].
  apply Z.leb_le in Hlo. apply Z.leb_le in Hhi.
  rewrite Hlo, Hhi, H2, H1, H0, Hdim. reflexivity.
Qed.




(** ** The two rainfall functions *)

Section RainfallFacts.

Variable get_rainfall_dict :
  forall (lat lon : Q) (dataset : string), result (dict date Q).
Variable get_rev_rainfall_dict :
  forall (lat lon : Q) (dataset : string) (end_date : date)
         (final_rev : option string), result (dict date Q * bool).
Variable listify_period :
  forall (start_date end_date : date), result (list date).

Lemma year_entry_term (d : dict date Q) (s e : date) (cap : option Q) (y : Z) :
  year_entry listify_period d s e cap y
  = (term <- year_term listify_period s e y ;;
     rain <- term_rain d cap term ;;
     Ok (py_sum rain, List.length rain)).
Proof.
  unfold year_entry, year_term.
  destruct (replace_year s y); simpl; [| reflexivity].
  destruct (replace_year e _); reflexivity.
Qed.

(** The loop stores, in order, the entry of each year. *)
Lemma for_year_in_entries (d : dict date Q) (s e : date) (cap : option Q) :
  forall (ys : list Z) (acc : dict Z (Q * nat)),
    NoDup ys ->
    (forall y, In y ys -> ~ In y (dict_keys acc)) ->
    for_year_in listify_period ys d s e cap acc
    = (entries <- list_comp (year_entry listify_period d s e cap) ys ;;
       Ok (acc ++ combine ys entries)).
Proof.
  induction ys as [| y ys IH]; intros acc Hnd Hfresh; simpl.
  - rewrite app_nil_r. reflexivity.
  - destruct (year_entry listify_period d s e cap y) as [v | err]; simpl;
      [| reflexivity].
    apply NoDup_cons_iff in Hnd. destruct Hnd as [Hy Hnd].
    rewrite dict_setitem_fresh by (apply Hfresh; left; reflexivity).
    rewrite IH; [| exact Hnd |].
    + destruct (list_comp (year_entry listify_period d s e cap) ys); simpl;
        [| reflexivity].
      rewrite <- app_assoc. reflexivity.
    + intros y' Hy' Hin. unfold dict_keys in Hin.
      rewrite map_app in Hin. apply in_app_or in Hin.
      destruct Hin as [Hin | [<- | []]]; [| exact (Hy Hy')].
      apply (Hfresh y'); [right; exact Hy' | exact Hin].
Qed.

Lemma build_historical_entries lat lon dataset s e0 cap start_year end_year
      use_prelim final_rev :
  build_historical_rainfall_dict get_rainfall_dict get_rev_rainfall_dict
    listify_period
    lat lon dataset s e0 cap start_year end_year use_prelim final_rev
  = ('(d, e, fin) <- resolve_rainfall_dict get_rainfall_dict get_rev_rainfall_dict
                       lat lon dataset e0 use_prelim final_rev ;;
     let ys := range start_year (end_year_or_default s end_year + 1) in
     entries <- list_comp (year_entry listify_period d s e cap) ys ;;
     Ok (combine ys entries, fin)).
Proof.
  unfold build_historical_rainfall_dict.
  destruct (resolve_rainfall_dict get_rainfall_dict get_rev_rainfall_dict
              lat lon dataset e0 use_prelim final_rev)
    as [[[d e] fin] | err]; simpl; [| reflexivity].
  fold (end_year_or_default s end_year).
  rewrite for_year_in_entries; [| apply NoDup_range | intros ? ? []].
  destruct (list_comp _ _); reflexivity.
Qed.


(** C6. Without [use_prelim] the flag returned by either function is
    [True], whatever the data. *)
Theorem final_only_is_final :
  forall lat lon dataset start_date end_date daily_cap start_year end_year
         final_rev total days yearly is_final,
    sum_period_rainfall get_rainfall_dict get_rev_rainfall_dict listify_period
      lat lon dataset start_date end_date daily_cap false final_rev
    = Ok (total, days, is_final)
    \/ build_historical_rainfall_dict get_rainfall_dict get_rev_rainfall_dict
         listify_period lat lon dataset start_date end_date daily_cap
         start_year end_year false final_rev
       = Ok (yearly, is_final) ->
    is_final = true.
Proof.
  intros lat lon dataset s e cap sy ey rev total days yearly fin [H | H].
  - unfold sum_period_rainfall, resolve_rainfall_dict in H.
    inv_bind H. inv_bind Ha. injection Ha as <-.
    inv_bind H. inv_bind H. injection H as _ _ <-. reflexivity.
  - unfold build_historical_rainfall_dict, resolve_rainfall_dict in H.
    inv_bind H. inv_bind Ha. injection Ha as <-.
    inv_bind H. injection H as _ <-. reflexivity.
Qed.

(** C10. A cap equal to zero is falsy: both functions then behave as with
    no cap, and the values are summed unclipped. *)
Theorem zero_cap_is_no_cap :
  forall (zero : Q) lat lon dataset start_date end_date start_year end_year
         use_prelim final_rev,
    (zero == 0)%Q ->
    sum_period_rainfall get_rainfall_dict get_rev_rainfall_dict listify_period
      lat lon dataset start_date end_date (Some zero)
      use_prelim final_rev
    = sum_period_rainfall get_rainfall_dict get_rev_rainfall_dict listify_period
        lat lon dataset start_date end_date None use_prelim final_rev
    /\ build_historical_rainfall_dict get_rainfall_dict get_rev_rainfall_dict
         listify_period
         lat lon dataset start_date end_date (Some zero)
         start_year end_year use_prelim final_rev
       = build_historical_rainfall_dict get_rainfall_dict get_rev_rainfall_dict
           listify_period
           lat lon dataset start_date end_date None
           start_year end_year use_prelim final_rev
    /\ (forall rainfall_dict dates,
          term_rain rainfall_dict (Some zero) dates
          = list_comp (fun date => dict_getitem rainfall_dict date) dates).
Proof.
  intros zero lat lon dataset s e sy ey up rev Hz.
  assert (Hcap : forall d dates,
             term_rain d (Some zero) dates = term_rain d None dates).
  { intros d dates. unfold term_rain, float_truth.
    apply Qeq_bool_iff in Hz. rewrite Hz. reflexivity. }
  assert (Hentry : forall d s' e' y,
             year_entry listify_period d s' e' (Some zero) y
             = year_entry listify_period d s' e' None y).
  { intros. rewrite !year_entry_term.
    destruct (year_term listify_period s' e' y); cbn [bind]; [| reflexivity].
    rewrite Hcap. reflexivity. }
  split; [| split].
  - unfold sum_period_rainfall.
    destruct (resolve_rainfall_dict get_rainfall_dict get_rev_rainfall_dict
                lat lon dataset e up rev) as [[[d e'] fin] | err];
      cbn [bind]; [| reflexivity].
    destruct (listify_period s e'); cbn [bind]; [| reflexivity].
    rewrite Hcap. reflexivity.
  - rewrite !build_historical_entries.
    destruct (resolve_rainfall_dict get_rainfall_dict get_rev_rainfall_dict
                lat lon dataset e up rev) as [[[d e'] fin] | err];
      cbn [bind]; [| reflexivity].
    rewrite (list_comp_ext _ _ _ (Hentry d s e')). reflexivity.
  - intros d dates. rewrite Hcap. reflexivity.
Qed.

Lemma year_entry_Ok_inv (d : dict date Q) (s e : date) (cap : option Q) (y : Z) :
  forall v, year_entry listify_period d s e cap y = Ok v ->
  exists term rain,
    year_term listify_period s e y = Ok term
    /\ term_rain d cap term = Ok rain
    /\ v = (py_sum rain, List.length term).
Proof.
  intros v H. rewrite year_entry_term in H.
  bind_inv H as term Hterm. bind_inv H as rain Hrain. injection H as <-.
  exists term, rain.
  rewrite term_rain_capped in Hrain. rewrite (list_comp_length _ _ _ Hrain).
  rewrite <- term_rain_capped in Hrain. auto.
Qed.

Lemma capped_values (d : dict date Q) (cap : Q) (dates : list date) (rain : list Q) :
  float_truth cap = true ->
  term_rain d (Some cap) dates = Ok rain ->
  exists values,
    Forall2 (fun x v => dict_getitem d x = Ok v) dates values
    /\ rain = map (fun v => py_min v cap) values.
Proof.
  intros Hcap H. apply term_rain_Ok in H.
  induction H as [| x r dates rain (v & Hv & ->) _ (values & HF & ->)].
  - exists []. split; [constructor | reflexivity].
  - exists (v :: values). unfold capped. rewrite Hcap.
    split; [constructor; assumption | reflexivity].
Qed.

(** C5, amended.  With a cap that is not zero, each daily value [v] enters
    the total as [min(v, cap)]: at most the cap, and unchanged when it is at
    or below the cap.  The total is the sum of these clipped values and the
    count is the number of dates, for the single term and for every year of
    the historical dict. *)
Theorem nonzero_cap_clips_each_value :
  forall cap lat lon dataset start_date end_date start_year end_year
         use_prelim final_rev,
    float_truth cap = true ->
    (forall total days is_final,
        sum_period_rainfall get_rainfall_dict get_rev_rainfall_dict listify_period
          lat lon dataset start_date end_date (Some cap)
          use_prelim final_rev
        = Ok (total, days, is_final) ->
        exists rainfall_dict effective_end dates values,
          resolve_rainfall_dict get_rainfall_dict get_rev_rainfall_dict
            lat lon dataset end_date use_prelim final_rev
          = Ok (rainfall_dict, effective_end, is_final)
          /\ listify_period start_date effective_end = Ok dates
          /\ Forall2 (fun x v => dict_getitem rainfall_dict x = Ok v)
                     dates values
          /\ total = py_sum (map (fun v => py_min v cap) values)
          /\ days = List.length dates)
    /\ (forall yearly is_final y total days,
          build_historical_rainfall_dict get_rainfall_dict get_rev_rainfall_dict
            listify_period
            lat lon dataset start_date end_date (Some cap)
            start_year end_year use_prelim final_rev
          = Ok (yearly, is_final) ->
          In (y, (total, days)) yearly ->
          exists rainfall_dict effective_end term values,
            resolve_rainfall_dict get_rainfall_dict get_rev_rainfall_dict
              lat lon dataset end_date use_prelim final_rev
            = Ok (rainfall_dict, effective_end, is_final)
            /\ year_term listify_period start_date effective_end y = Ok term
            /\ Forall2 (fun x v => dict_getitem rainfall_dict x = Ok v)
                       term values
            /\ total = py_sum (map (fun v => py_min v cap) values)
            /\ days = List.length term)
    /\ (forall v, (py_min v cap <= cap)%Q)
    /\ (forall v, (v <= cap)%Q -> py_min v cap = v).
Proof.
  intros cap lat lon dataset s e sy ey up rev Hcap.
  split; [| split; [| split]];
    [| | intro v; apply py_min_le_cap | intro v; apply py_min_below].
  - intros total days fin H. unfold sum_period_rainfall in H.
    bind_inv H as [[d e'] fin'] Hres. bind_inv H as dates Hdates.
    bind_inv H as rain Hrain. injection H as <- <- <-.
    destruct (capped_values _ _ _ _ Hcap Hrain) as (values & HF & ->).
    exists d, e', dates, values. rewrite length_map.
    repeat split; try assumption.
    symmetry. eapply Forall2_length; eassumption.
  - intros yearly fin y total days H Hin.
    rewrite build_historical_entries in H.
    bind_inv H as [[d e'] fin'] Hres. cbn zeta in H.
    bind_inv H as entries Hentries. injection H as <- <-.
    apply list_comp_Forall2 in Hentries.
    pose proof (Forall2_combine_In _ _ _ Hentries _ _ Hin) as Hy. cbn beta in Hy.
    rewrite year_entry_term in Hy. bind_inv Hy as term Hterm.
    bind_inv Hy as rain Hrain. injection Hy as <- <-.
    destruct (capped_values _ _ _ _ Hcap Hrain) as (values & HF & ->).
    exists d, e', term, values. rewrite length_map.
    repeat split; try assumption.
    symmetry. eapply Forall2_length; eassumption.
Qed.

(** C8. Once the series and the dates of the term are known, the total
    raises [KeyError] (the missing-date error) at the first date the series
    does not hold, and otherwise succeeds with the sum of the values and
    the number of dates; a year of the historical dict behaves alike, and a
    year that raises makes the whole call raise. *)
Theorem missing_date_raises :
  forall lat lon dataset start_date end_date daily_cap start_year end_year
         use_prelim final_rev rainfall_dict effective_end is_final,
    resolve_rainfall_dict get_rainfall_dict get_rev_rainfall_dict
      lat lon dataset end_date use_prelim final_rev
    = Ok (rainfall_dict, effective_end, is_final) ->
    (forall dates,
        listify_period start_date effective_end = Ok dates ->
        ((exists x, In x dates /\ dict_contains date_eqb rainfall_dict x = false) ->
         exists x, In x dates
                   /\ dict_contains date_eqb rainfall_dict x = false
                   /\ sum_period_rainfall get_rainfall_dict
                        get_rev_rainfall_dict listify_period
                        lat lon dataset start_date end_date daily_cap
                        use_prelim final_rev
                      = Raise (KeyError (DateKey x)))
        /\ ((forall x, In x dates -> dict_contains date_eqb rainfall_dict x = true) ->
            exists rain,
              Forall2 (fun x r => exists v, dict_getitem rainfall_dict x = Ok v
                                            /\ r = capped daily_cap v) dates rain
              /\ sum_period_rainfall get_rainfall_dict get_rev_rainfall_dict
                   listify_period
                   lat lon dataset start_date end_date daily_cap
                   use_prelim final_rev
                 = Ok (py_sum rain, List.length dates, is_final)))
    /\ (forall y term,
          In y (range start_year (end_year_or_default start_date end_year + 1)) ->
          year_term listify_period start_date effective_end y = Ok term ->
          ((exists x, In x term /\ dict_contains date_eqb rainfall_dict x = false) ->
           (exists x, In x term
                      /\ dict_contains date_eqb rainfall_dict x = false
                      /\ year_entry listify_period rainfall_dict start_date
                           effective_end daily_cap y
                         = Raise (KeyError (DateKey x)))
           /\ exists y' err,
               In y' (range start_year
                        (end_year_or_default start_date end_year + 1))
               /\ year_entry listify_period rainfall_dict start_date
                    effective_end daily_cap y'
                  = Raise err
               /\ build_historical_rainfall_dict get_rainfall_dict
                    get_rev_rainfall_dict listify_period
                    lat lon dataset start_date end_date daily_cap
                    start_year end_year use_prelim final_rev
                  = Raise err)
          /\ ((forall x, In x term -> dict_contains date_eqb rainfall_dict x = true) ->
              exists rain,
                Forall2 (fun x r => exists v, dict_getitem rainfall_dict x = Ok v
                                              /\ r = capped daily_cap v) term rain
                /\ year_entry listify_period rainfall_dict start_date
                     effective_end daily_cap y
                   = Ok (py_sum rain, List.length term))).
Proof.
  intros lat lon dataset s e0 cap sy ey up rev d e fin Hres. split.
  - intros dates Hdates. unfold sum_period_rainfall. rewrite Hres.
    cbn [bind]. rewrite Hdates. cbn [bind]. split.
    + intro Hmiss.
      destruct (term_rain_missing d cap dates Hmiss) as (x & Hin & Hx & Hr).
      exists x. rewrite Hr. auto.
    + intro Hall.
      destruct (term_rain_present d cap dates Hall) as (rain & Hr & HF).
      exists rain. rewrite Hr. cbn [bind].
      rewrite (Forall2_length HF). auto.
  - intros y term Hy Hterm. split.
    + intro Hmiss.
      destruct (term_rain_missing d cap term Hmiss) as (x & Hin & Hx & Hr).
      assert (Hentry : year_entry listify_period d s e cap y
                       = Raise (KeyError (DateKey x))).
      { rewrite year_entry_term, Hterm. cbn [bind]. rewrite Hr. reflexivity. }
      split; [exists x; auto |].
      destruct (list_comp_raises (year_entry listify_period d s e cap)
                  (range sy (end_year_or_default s ey + 1)))
        as (y' & err & Hy' & He & Hl).
      { exists y. split; [exact Hy |]. intros v. rewrite Hentry. discriminate. }
      exists y', err. rewrite build_historical_entries, Hres.
      cbn [bind]. cbn zeta. rewrite Hl. auto.
    + intro Hall.
      destruct (term_rain_present d cap term Hall) as (rain & Hr & HF).
      exists rain. rewrite year_entry_term, Hterm. cbn [bind].
      rewrite Hr. cbn [bind]. rewrite (Forall2_length HF). auto.
Qed.

Lemma build_historical_Ok_inv lat lon dataset s e0 cap start_year end_year
      use_prelim final_rev d e fin yearly is_final :
  resolve_rainfall_dict get_rainfall_dict get_rev_rainfall_dict
    lat lon dataset e0 use_prelim final_rev = Ok (d, e, fin) ->
  build_historical_rainfall_dict get_rainfall_dict get_rev_rainfall_dict
    listify_period
    lat lon dataset s e0 cap start_year end_year use_prelim final_rev
  = Ok (yearly, is_final) ->
  exists entries,
    Forall2 (fun y v => year_entry listify_period d s e cap y = Ok v)
            (range start_year (end_year_or_default s end_year + 1)) entries
    /\ yearly = combine (range start_year (end_year_or_default s end_year + 1))
                        entries
    /\ is_final = fin.
Proof.
  intros Hres H. rewrite build_historical_entries, Hres in H.
  cbn [bind] in H. cbn zeta in H.
  bind_inv H as entries Hentries. injection H as <- <-.
  exists entries. split; [apply list_comp_Forall2; exact Hentries | auto].
Qed.


(** C2, amended.  In the year [y] the term runs from the start date with its
    year set to [y] to the end date with its year set to
    [y + (end_date.year - start_date.year)]; when the end date lies in the
    year after the start date, that is the end date moved to the year
    [y + 1]. *)
Theorem historical_year_projection :
  forall lat lon dataset start_date end_date daily_cap start_year end_year
         use_prelim final_rev rainfall_dict effective_end is_final yearly flag y,
    resolve_rainfall_dict get_rainfall_dict get_rev_rainfall_dict
      lat lon dataset end_date use_prelim final_rev
    = Ok (rainfall_dict, effective_end, is_final) ->
    build_historical_rainfall_dict get_rainfall_dict get_rev_rainfall_dict
      listify_period
      lat lon dataset start_date end_date daily_cap
      start_year end_year use_prelim final_rev
    = Ok (yearly, flag) ->
    start_year <= y <= end_year_or_default start_date end_year ->
    exists historical_start historical_end term rain,
      replace_year start_date y = Ok historical_start
      /\ historical_start = mkdate y (month start_date) (day start_date)
      /\ replace_year effective_end (y + (year effective_end - year start_date))
         = Ok historical_end
      /\ historical_end
         = mkdate (y + (year effective_end - year start_date))
                  (month effective_end) (day effective_end)
      /\ listify_period historical_start historical_end = Ok term
      /\ term_rain rainfall_dict daily_cap term = Ok rain
      /\ dict_get Z.eqb yearly y = Some (py_sum rain, List.length term)
      /\ (year effective_end = year start_date + 1 ->
          replace_year effective_end (y + 1) = Ok historical_end
          /\ year historical_end = y + 1).
Proof.
  intros lat lon dataset s e0 cap sy ey up rev d e fin yearly flag y Hres H Hy.
  destruct (build_historical_Ok_inv _ _ _ _ _ _ _ _ _ _ _ _ _ _ _ Hres H)
    as (entries & HF & -> & _).
  destruct (dict_get_combine _ _ _ HF y) as (v & Hget & Hv);
    [apply In_range; lia |].
  destruct (year_entry_Ok_inv _ _ _ _ _ _ Hv) as (term & rain & Ht & Hr & ->).
  unfold year_term in Ht.
  bind_inv Ht as hs Hhs. bind_inv Ht as he Hhe.
  exists hs, he, term, rain.
  pose proof (replace_year_Ok _ _ _ Hhs) as Ehs.
  pose proof (replace_year_Ok _ _ _ Hhe) as Ehe.
  repeat (split; [assumption |]).
  intro Hnext. split.
  - rewrite <- Hhe. f_equal. lia.
  - rewrite Ehe. simpl. lia.
Qed.

(** C9, amended.  The projection is [date.replace]: it puts no other day in
    the place of 29 February.  When the start date, or the end date in use,
    is 29 February and its target year is a common year, the projection
    raises [ValueError] and so does the year, and the call returns no dict;
    any other calendar date is projected onto every year from 1 to 9999. *)
Theorem leap_day_projection_raises :
  forall lat lon dataset start_date end_date daily_cap start_year end_year
         use_prelim final_rev rainfall_dict effective_end is_final y,
    resolve_rainfall_dict get_rainfall_dict get_rev_rainfall_dict
      lat lon dataset end_date use_prelim final_rev
    = Ok (rainfall_dict, effective_end, is_final) ->
    start_year <= y <= end_year_or_default start_date end_year ->
    (is_feb29 start_date = true /\ is_leap y = false)
    \/ (is_feb29 effective_end = true
        /\ is_leap (y + (year effective_end - year start_date)) = false) ->
    (replace_year start_date y = Raise ValueError
     \/ replace_year effective_end (y + (year effective_end - year start_date))
        = Raise ValueError)
    /\ year_entry listify_period rainfall_dict start_date effective_end
         daily_cap y
       = Raise ValueError
    /\ (exists y' err,
          In y' (range start_year (end_year_or_default start_date end_year + 1))
          /\ year_entry listify_period rainfall_dict start_date effective_end
               daily_cap y'
             = Raise err
          /\ build_historical_rainfall_dict get_rainfall_dict get_rev_rainfall_dict
               listify_period
               lat lon dataset start_date end_date daily_cap
               start_year end_year use_prelim final_rev
             = Raise err)
    /\ (forall d target,
          date_ok d = true ->
          MINYEAR <= target <= MAXYEAR ->
          is_feb29 d = false \/ is_leap target = true ->
          replace_year d target = Ok (mkdate target (month d) (day d))).
Proof.
  intros lat lon dataset s e0 cap sy ey up rev d e fin y Hres Hy Hcase.
  assert (Hentry : year_entry listify_period d s e cap y = Raise ValueError).
  { unfold year_entry. destruct Hcase as [[Hs Hl] | [He Hl]].
    - rewrite (replace_year_feb29 _ _ Hs Hl). reflexivity.
    - rewrite (replace_year_feb29 _ _ He Hl).
      destruct (replace_year_cases s y) as [-> | ->]; reflexivity. }
  split; [| split; [exact Hentry | split]].
  - destruct Hcase as [[Hs Hl] | [He Hl]];
      [left | right]; apply replace_year_feb29; assumption.
  - destruct (list_comp_raises (year_entry listify_period d s e cap)
                (range sy (end_year_or_default s ey + 1)))
      as (y' & err & Hy' & He & Hl).
    { exists y. split; [apply In_range; lia |].
      intro v. rewrite Hentry. discriminate. }
    exists y', err. rewrite build_historical_entries, Hres.
    cbn [bind]. cbn zeta. rewrite Hl. auto.
  - intros dt target. apply replace_year_total.
Qed.

End RainfallFacts.

(** ** The two period tables *)

Section PeriodFacts.

Context {DataFrame : Type}.
Variable df_slice : DataFrame -> string -> string -> result DataFrame.
Variable df_column : DataFrame -> string -> result (list cell).

(** The loop appends, in order, each year and its value. *)
Lemma for_period_year_values (reduce : list cell -> cell) (df : DataFrame)
      (ps pe : date) (peril : string) :
  forall (ys years : list Z) (values : list cell),
    for_period_year df_slice df_column reduce ys df ps pe peril years values
    = (vs <- list_comp (year_value df_slice df_column reduce df ps pe peril) ys ;;
       Ok (years ++ ys, values ++ vs)).
Proof.
  induction ys as [| y ys IH]; intros years values; simpl.
  - rewrite !app_nil_r. reflexivity.
  - destruct (year_value df_slice df_column reduce df ps pe peril y)
      as [v | err]; simpl; [| reflexivity].
    rewrite IH.
    destruct (list_comp _ ys); simpl; [| reflexivity].
    rewrite <- !app_assoc. reflexivity.
Qed.

Lemma sum_period_df_rows (df : DataFrame) (ps pe : date) (yrs : Z) (peril : string) :
  sum_period_df df_slice df_column df ps pe yrs peril
  = (vs <- list_comp (year_value df_slice df_column series_sum df ps pe peril)
             (range (year ps - yrs) (year ps)) ;;
     Ok (combine (range (year ps - yrs) (year ps)) vs)).
Proof.
  unfold sum_period_df. rewrite for_period_year_values.
  destruct (list_comp _ _); reflexivity.
Qed.

Lemma avg_period_df_rows (df : DataFrame) (ps pe : date) (yrs : Z) (peril : string) :
  avg_period_df df_slice df_column df ps pe yrs peril
  = (vs <- list_comp (year_value df_slice df_column series_mean df ps pe peril)
             (range (year ps - yrs) (year ps)) ;;
     Ok (combine (range (year ps - yrs) (year ps)) vs)).
Proof.
  unfold avg_period_df. rewrite for_period_year_values.
  destruct (list_comp _ _); reflexivity.
Qed.

Lemma lookback_years (ps : date) (yrs : Z) (table : list (Z * cell)) :
  dict_keys table = range (year ps - yrs) (year ps) ->
  (forall y, In y (dict_keys table) <-> year ps - yrs <= y <= year ps - 1)
  /\ StronglySorted Z.lt (dict_keys table)
  /\ ~ In (year ps) (dict_keys table)
  /\ List.length table = Z.to_nat yrs.
Proof.
  intro Hkeys. rewrite Hkeys. split; [| split; [| split]].
  - intro y. rewrite In_range. lia.
  - apply range_sorted.
  - rewrite In_range. lia.
  - unfold dict_keys in Hkeys.
    rewrite <- (length_map fst table), Hkeys, length_range. f_equal. lia.
Qed.

(** C4. The frame either function returns has one row for each of the
    [yrs] years before the year of [ps], from [ps.year - yrs] to
    [ps.year - 1] in ascending order, and none for the year of [ps]. *)
Theorem period_table_years :
  forall df ps pe yrs peril table,
    sum_period_df df_slice df_column df ps pe yrs peril = Ok table
    \/ avg_period_df df_slice df_column df ps pe yrs peril = Ok table ->
    dict_keys table = range (year ps - yrs) (year ps)
    /\ (forall y, In y (dict_keys table) <-> year ps - yrs <= y <= year ps - 1)
    /\ StronglySorted Z.lt (dict_keys table)
    /\ ~ In (year ps) (dict_keys table)
    /\ List.length table = Z.to_nat yrs.
Proof.
  intros df ps pe yrs peril table H.
  assert (Hkeys : dict_keys table = range (year ps - yrs) (year ps)).
  { destruct H as [H | H];
      [rewrite sum_period_df_rows in H | rewrite avg_period_df_rows in H];
      bind_inv H as vs Hvs; injection H as <-;
      apply dict_keys_combine; eapply list_comp_length; exact Hvs. }
  split; [exact Hkeys | apply lookback_years; exact Hkeys].
Qed.

(** C7, amended.  When the slice and the column lookup of every lookback
    year succeed, both functions return; a year whose window holds no row
    gets the value 0 in the table of sums and NaN in the table of means. *)
Theorem empty_window_values :
  forall df ps pe yrs peril,
    (forall y, In y (range (year ps - yrs) (year ps)) ->
               exists chunk column,
                 df_slice df (fst (period_bounds ps pe y))
                          (snd (period_bounds ps pe y)) = Ok chunk
                 /\ df_column chunk peril = Ok column) ->
    exists sums avgs,
      sum_period_df df_slice df_column df ps pe yrs peril = Ok sums
      /\ avg_period_df df_slice df_column df ps pe yrs peril = Ok avgs
      /\ forall y chunk,
          In y (range (year ps - yrs) (year ps)) ->
          df_slice df (fst (period_bounds ps pe y))
                   (snd (period_bounds ps pe y)) = Ok chunk ->
          df_column chunk peril = Ok [] ->
          dict_get Z.eqb sums y = Some (Some 0%Q)
          /\ dict_get Z.eqb avgs y = Some None.
Proof.
  intros df ps pe yrs peril Hall.
  assert (Hval : forall reduce,
             exists vs,
               list_comp (year_value df_slice df_column reduce df ps pe peril)
                         (range (year ps - yrs) (year ps)) = Ok vs).
  { intro reduce.
    destruct (list_comp_all_or_raise (year_value df_slice df_column reduce df ps pe peril)
                (range (year ps - yrs) (year ps)))
      as [Hok | (y & Hy & Hbad)]; [exact Hok | exfalso].
    destruct (Hall y Hy) as (chunk & column & Hs & Hc).
    apply (Hbad (reduce column)).
    unfold year_value. rewrite Hs. cbn [bind]. rewrite Hc. reflexivity. }
  destruct (Hval series_sum) as (sums & Hsums).
  destruct (Hval series_mean) as (avgs & Havgs).
  exists (combine (range (year ps - yrs) (year ps)) sums),
         (combine (range (year ps - yrs) (year ps)) avgs).
  rewrite sum_period_df_rows, avg_period_df_rows, Hsums, Havgs.
  split; [reflexivity | split; [reflexivity |]].
  intros y chunk Hy Hs Hc.
  apply list_comp_Forall2 in Hsums. apply list_comp_Forall2 in Havgs.
  destruct (dict_get_combine _ _ _ Hsums y Hy) as (v & -> & Hv).
  destruct (dict_get_combine _ _ _ Havgs y Hy) as (w & -> & Hw).
  unfold year_value in Hv, Hw. rewrite Hs in Hv, Hw. cbn [bind] in Hv, Hw.
  rewrite Hc in Hv, Hw. cbn [bind] in Hv, Hw.
  injection Hv as <-. injection Hw as <-. split; reflexivity.
Qed.

End PeriodFacts.

(** ** The statements on the sample data *)

Module OnSamples.

Import Sample.

Definition jan (d : Z) : date := mkdate 2020 1 d.



Lemma final_only_is_final_witness :
  exists is_final,
    sum_period_rainfall (get_rainfall_dict series)
      (get_rev_rainfall_dict series false) Utils.listify_period
      0%Q 0%Q "chirps"%string (jan 1) (jan 3) None false None
    = Ok (23%Q, 3%nat, is_final)
    /\ is_final = true.
Proof.
  exists true. split; [reflexivity |].
  apply (final_only_is_final (get_rainfall_dict series)
           (get_rev_rainfall_dict series false) Utils.listify_period
           0%Q 0%Q "chirps"%string (jan 1) (jan 3) None 2020 None None
           23%Q 3%nat [] true).
  left. reflexivity.
Defined.

Lemma zero_cap_is_no_cap_witness :
  (0 == 0)%Q
  /\ sum_period_rainfall (get_rainfall_dict series)
       (get_rev_rainfall_dict series false) Utils.listify_period
       0%Q 0%Q "chirps"%string (jan 1) (jan 3) (Some 0%Q) false None
     = sum_period_rainfall (get_rainfall_dict series)
         (get_rev_rainfall_dict series false) Utils.listify_period
         0%Q 0%Q "chirps"%string (jan 1) (jan 3) None false None.
Proof.
  split; [reflexivity |].
  apply (zero_cap_is_no_cap (get_rainfall_dict series)
           (get_rev_rainfall_dict series false) Utils.listify_period
           0%Q 0%Q 0%Q "chirps"%string (jan 1) (jan 3) 2020 None false None).
  reflexivity.
Defined.

(** C5 as stated fails for the cap 0: nothing is clipped, and the total of
    three days, 23 mm, exceeds 0 times 3. *)
Lemma zero_cap_total_exceeds_bound :
  exists total days is_final,
    sum_period_rainfall (get_rainfall_dict series)
      (get_rev_rainfall_dict series false) Utils.listify_period
      0%Q 0%Q "chirps"%string (jan 1) (jan 3) (Some 0%Q) false None
    = Ok (total, days, is_final)
    /\ ~ (total <= 0 * inject_Z (Z.of_nat days))%Q.
Proof.
  exists 23%Q, 3%nat, true. split; [reflexivity |].
  unfold Qle. simpl. lia.
Qed.

Lemma nonzero_cap_clips_each_value_witness :
  float_truth 10%Q = true
  /\ exists rainfall_dict effective_end dates values,
      resolve_rainfall_dict (get_rainfall_dict series)
        (get_rev_rainfall_dict series false)
        0%Q 0%Q "chirps"%string (jan 3) false None
      = Ok (rainfall_dict, effective_end, true)
      /\ Utils.listify_period (jan 1) effective_end = Ok dates
      /\ Forall2 (fun x v => dict_getitem rainfall_dict x = Ok v) dates values
      /\ 21%Q = py_sum (map (fun v => py_min v 10%Q) values)
      /\ 3%nat = List.length dates.
Proof.
  split; [reflexivity |].
  apply (proj1 (nonzero_cap_clips_each_value (get_rainfall_dict series)
                  (get_rev_rainfall_dict series false) Utils.listify_period
                  10%Q 0%Q 0%Q "chirps"%string (jan 1) (jan 3) 2020 None
                  false None eq_refl)
               21%Q 3%nat true eq_refl).
Defined.

(** 4 January is not in the series. *)
Lemma missing_date_raises_witness :
  exists x,
    In x [jan 1; jan 2; jan 3; jan 4; jan 5]
    /\ dict_contains date_eqb series x = false
    /\ sum_period_rainfall (get_rainfall_dict series)
         (get_rev_rainfall_dict series false) Utils.listify_period
         0%Q 0%Q "chirps"%string (jan 1) (jan 5) None false None
       = Raise (KeyError (DateKey x)).
Proof.
  apply (proj1 (proj1 (missing_date_raises (get_rainfall_dict series)
                         (get_rev_rainfall_dict series false)
                         Utils.listify_period
                         0%Q 0%Q "chirps"%string (jan 1) (jan 5) None 2020 None
                         false None series (jan 5) true eq_refl)
                      [jan 1; jan 2; jan 3; jan 4; jan 5] eq_refl)).
  exists (jan 4). split; [simpl; auto | reflexivity].
Defined.


(** A term from 25 December to 5 January, replayed in 2000, ends in 2001 and
    has twelve days. *)
Lemma historical_year_projection_witness :
  exists historical_start historical_end term rain,
    replace_year (mkdate 2020 12 25) 2000 = Ok historical_start
    /\ historical_start = mkdate 2000 12 25
    /\ replace_year (mkdate 2021 1 5) (2000 + (2021 - 2020)) = Ok historical_end
    /\ historical_end = mkdate (2000 + (2021 - 2020)) 1 5
    /\ Utils.listify_period historical_start historical_end = Ok term
    /\ term_rain wide_series None term = Ok rain
    /\ dict_get Z.eqb [(2000, (12%Q, 12%nat))] 2000
       = Some (py_sum rain, List.length term)
    /\ (2021 = 2020 + 1 ->
        replace_year (mkdate 2021 1 5) (2000 + 1) = Ok historical_end
        /\ year historical_end = 2000 + 1).
Proof.
  assert (Hcall :
           build_historical_rainfall_dict (get_rainfall_dict wide_series)
             (get_rev_rainfall_dict series false) Utils.listify_period
             0%Q 0%Q "chirps"%string (mkdate 2020 12 25) (mkdate 2021 1 5) None
             2000 (Some 2000) false None
           = Ok ([(2000, (12%Q, 12%nat))], true))
    by (vm_compute; reflexivity).
  apply (historical_year_projection (get_rainfall_dict wide_series)
           (get_rev_rainfall_dict series false) Utils.listify_period
           0%Q 0%Q "chirps"%string (mkdate 2020 12 25) (mkdate 2021 1 5) None
           2000 (Some 2000) false None wide_series (mkdate 2021 1 5) true
           [(2000, (12%Q, 12%nat))] true 2000 eq_refl Hcall).
  simpl. lia.
Defined.

(** C2 as stated fails for a term that ends two years after it starts: from
    1 June 2000 the replayed term runs to 10 June 2002, 740 days, and not to
    10 June 2001, the end date moved to the year after, 375 days. *)
Lemma two_year_term_ends_two_years_later :
  year (mkdate 2000 6 1) < year (mkdate 2002 6 10)
  /\ build_historical_rainfall_dict (get_rainfall_dict long_series)
       (get_rev_rainfall_dict series false) Utils.listify_period
       0%Q 0%Q "chirps"%string (mkdate 2000 6 1) (mkdate 2002 6 10) None
       2000 (Some 2000) false None
     = Ok ([(2000, (740%Q, 740%nat))], true)
  /\ year_term Utils.listify_period (mkdate 2000 6 1) (mkdate 2002 6 10) 2000
     = Utils.listify_period (mkdate 2000 6 1) (mkdate 2002 6 10)
  /\ replace_year (mkdate 2002 6 10) (2000 + 1) = Ok (mkdate 2001 6 10)
  /\ (exists term,
        Utils.listify_period (mkdate 2000 6 1) (mkdate 2001 6 10) = Ok term
        /\ List.length term = 375%nat)
  /\ year_term Utils.listify_period (mkdate 2000 6 1) (mkdate 2002 6 10) 2000
     <> Utils.listify_period (mkdate 2000 6 1) (mkdate 2001 6 10).
Proof.
  split; [simpl; lia |].
  split; [vm_compute; reflexivity |].
  split; [reflexivity |].
  split; [reflexivity |].
  split.
  - eexists. split; [reflexivity | vm_compute; reflexivity].
  - intro H. apply (f_equal (fun r => match r with
                                       | Ok l => List.length l
                                       | Raise _ => O
                                       end)) in H.
    vm_compute in H. discriminate H.
Qed.

(** C9 as stated fails: 29 February 2020 has no counterpart in 2019, and the
    call raises. *)
Lemma feb29_start_has_no_substitute :
  (forall d, replace_year (mkdate 2020 2 29) 2019 <> Ok d)
  /\ build_historical_rainfall_dict (get_rainfall_dict series)
       (get_rev_rainfall_dict series false) Utils.listify_period
       0%Q 0%Q "chirps"%string (mkdate 2020 2 29) (mkdate 2020 3 5) None
       2019 (Some 2019) false None
     = Raise ValueError.
Proof.
  split; [intros d H; discriminate H | reflexivity].
Qed.

Lemma leap_day_projection_raises_witness :
  is_feb29 (mkdate 2020 2 29) = true
  /\ is_leap 2019 = false
  /\ year_entry Utils.listify_period series (mkdate 2020 2 29) (mkdate 2020 3 5)
       None 2019
     = Raise ValueError.
Proof.
  split; [reflexivity | split; [reflexivity |]].
  apply (leap_day_projection_raises (get_rainfall_dict series)
           (get_rev_rainfall_dict series false) Utils.listify_period
           0%Q 0%Q "chirps"%string (mkdate 2020 2 29) (mkdate 2020 3 5) None
           2019 (Some 2019) false None series (mkdate 2020 3 5) true 2019
           eq_refl).
  - simpl. lia.
  - left. split; reflexivity.
Defined.

Definition june (d : Z) : date := mkdate 2020 6 d.

Lemma period_table_years_witness :
  exists frame,
    sum_period_df DenseTable.slice DenseTable.column june_table
      (june 1) (june 10) 3 "rain"%string
    = Ok frame
    /\ frame = [(2017, Some 0%Q); (2018, Some 0%Q); (2019, Some 50%Q)]
    /\ dict_keys frame = range (2020 - 3) 2020
    /\ ~ In 2020 (dict_keys frame).
Proof.
  eexists. split; [reflexivity | split; [reflexivity |]].
  destruct (period_table_years DenseTable.slice DenseTable.column june_table
              (june 1) (june 10) 3 "rain"%string _ (or_introl eq_refl))
    as (Hkeys & _ & _ & Hnot & _).
  split; [exact Hkeys | exact Hnot].
Defined.

(** C7 as stated fails for the sums: the table has no row in June 2019, and
    the sum over that window is the number 0, not NaN. *)
Lemma empty_window_sum_is_zero :
  period_bounds (june 1) (june 10) 2019 = ("2019-6-1", "2019-6-10")%string
  /\ DenseTable.slice table "2019-6-1" "2019-6-10"
     = Ok (DenseTable.mk ["rain"%string] [])
  /\ sum_period_df DenseTable.slice DenseTable.column table
       (june 1) (june 10) 1 "rain"%string
     = Ok [(2019, Some 0%Q)]
  /\ Some 0%Q <> (None : cell).
Proof.
  repeat split; try reflexivity. discriminate.
Qed.

Lemma empty_window_values_witness :
  exists sums avgs,
    sum_period_df DenseTable.slice DenseTable.column table
      (june 1) (june 10) 1 "rain"%string = Ok sums
    /\ avg_period_df DenseTable.slice DenseTable.column table
         (june 1) (june 10) 1 "rain"%string = Ok avgs
    /\ dict_get Z.eqb sums 2019 = Some (Some 0%Q)
    /\ dict_get Z.eqb avgs 2019 = Some None.
Proof.
  destruct (empty_window_values DenseTable.slice DenseTable.column table
              (june 1) (june 10) 1 "rain"%string)
    as (sums & avgs & Hsums & Havgs & Hrow).
  - intros y [<- | []]. eexists. eexists. split; reflexivity.
  - exists sums, avgs. split; [exact Hsums | split; [exact Havgs |]].
    apply (Hrow 2019 (DenseTable.mk ["rain"%string] []));
      [left; reflexivity | reflexivity | reflexivity].
Defined.

End OnSamples.

(** * Further properties *)

(** ** Ranges and comprehensions, continued *)

Lemma range_nil (lo hi : Z) : hi <= lo -> range lo hi = [].
Proof.
  intro H. unfold range. replace (Z.to_nat (hi - lo)) with O by lia. reflexivity.
Qed.

Lemma range_app (lo y hi : Z) :
  lo <= y <= hi -> range lo hi = range lo y ++ range y hi.
Proof.
  intro H. unfold range.
  replace (Z.to_nat (hi - lo))
    with (Z.to_nat (y - lo) + Z.to_nat (hi - y))%nat by lia.
  rewrite seq_app, map_app. f_equal. rewrite Nat.add_0_l.
  assert (Haux : forall n s,
             map (fun i => lo + Z.of_nat i) (seq (Z.to_nat (y - lo) + s) n)
             = map (fun i => y + Z.of_nat i) (seq s n)).
  { induction n as [| n IH]; intro s; simpl; [reflexivity |].
    f_equal; [lia |]. rewrite <- IH. f_equal. f_equal. lia. }
  rewrite <- Haux, Nat.add_0_r. reflexivity.
Qed.

Lemma range_single (y : Z) : range y (y + 1) = [y].
Proof.
  unfold range. replace (Z.to_nat (y + 1 - y)) with 1%nat by lia.
  simpl. f_equal. lia.
Qed.

Lemma range_cons (lo hi : Z) : lo < hi -> range lo hi = lo :: range (lo + 1) hi.
Proof.
  intro H. rewrite (range_app lo (lo + 1) hi) by lia.
  rewrite range_single. reflexivity.
Qed.

Lemma range_snoc (lo hi : Z) : lo <= hi -> range lo (hi + 1) = range lo hi ++ [hi].
Proof.
  intro H. rewrite (range_app lo hi (hi + 1)) by lia.
  rewrite range_single. reflexivity.
Qed.

Lemma list_comp_app {A B : Type} (f : A -> result B) (xs ys : list A) :
  list_comp f (xs ++ ys)
  = (a <- list_comp f xs ;; b <- list_comp f ys ;; Ok (a ++ b)).
Proof.
  induction xs as [| x xs IH]; simpl.
  - destruct (list_comp f ys); reflexivity.
  - destruct (f x) as [v | e]; simpl; [| reflexivity].
    rewrite IH. destruct (list_comp f xs); simpl; [| reflexivity].
    destruct (list_comp f ys); reflexivity.
Qed.

(** A comprehension raises the exception of its first failing element. *)
Lemma list_comp_first_raise {A B : Type} (f : A -> result B) (xs ys : list A)
      (x : A) (e : exn) :
  (forall x', In x' xs -> exists v, f x' = Ok v) ->
  f x = Raise e ->
  list_comp f (xs ++ x :: ys) = Raise e.
Proof.
  intros Hok Hx. rewrite list_comp_app.
  destruct (list_comp_all_or_raise f xs) as [(vs & ->) | (x' & Hin & Hbad)].
  - simpl. rewrite Hx. reflexivity.
  - destruct (Hok x' Hin) as (v & Hv). exfalso. exact (Hbad v Hv).
Qed.

Lemma list_comp_rel {A B C : Type} (R : B -> C -> Prop)
      (f : A -> result B) (g : A -> result C) (xs : list A) :
  (forall x, In x xs -> result_rel R (f x) (g x)) ->
  result_rel (Forall2 R) (list_comp f xs) (list_comp g xs).
Proof.
  induction xs as [| x xs IH]; intro H; simpl; [constructor |].
  pose proof (H x (or_introl eq_refl)) as Hx.
  destruct (f x) as [b | e], (g x) as [c | e']; simpl in *;
    try contradiction; [| exact Hx].
  assert (IH' := IH (fun x' Hin => H x' (or_intror Hin))).
  destruct (list_comp f xs), (list_comp g xs); simpl in *;
    try contradiction; [constructor; assumption | exact IH'].
Qed.

Lemma combine_app_same {A B : Type} (xs xs' : list A) (ys ys' : list B) :
  List.length xs = List.length ys ->
  combine (xs ++ xs') (ys ++ ys') = combine xs ys ++ combine xs' ys'.
Proof.
  revert ys. induction xs as [| x xs IH]; intros [| y ys] H; simpl in *;
    try discriminate; [reflexivity |].
  f_equal. apply IH. lia.
Qed.

Lemma replace_year_same (d : date) :
  date_ok d = true -> replace_year d (year d) = Ok d.
Proof.
  unfold date_ok, replace_year. intros ->. destruct d; reflexivity.
Qed.

(** ** Sums under two caps *)

Lemma py_min_le_value (v c : Q) : (py_min v c <= v)%Q.
Proof.
  unfold py_min. destruct (Qle_bool v c) eqn:H; [apply Qle_refl |].
  destruct (Qlt_le_dec c v) as [Hlt | Hle].
  - apply Qlt_le_weak. exact Hlt.
  - apply Qle_bool_iff in Hle. congruence.
Qed.

Lemma py_min_mono (v c1 c2 : Q) : (c1 <= c2)%Q -> (py_min v c1 <= py_min v c2)%Q.
Proof.
  intro H. unfold py_min.
  destruct (Qle_bool v c1) eqn:H1, (Qle_bool v c2) eqn:H2.
  - apply Qle_refl.
  - apply Qle_bool_iff in H1. eapply Qle_trans; eassumption.
  - destruct (Qlt_le_dec c1 v) as [Hlt | Hle].
    + apply Qlt_le_weak. exact Hlt.
    + apply Qle_bool_iff in Hle. congruence.
  - exact H.
Qed.

Lemma fold_sum_mono (xs ys : list Q) :
  Forall2 Qle xs ys ->
  forall a b, (a <= b)%Q -> (fold_left Qplus xs a <= fold_left Qplus ys b)%Q.
Proof.
  induction 1 as [| x y xs ys Hxy _ IH]; intros a b Hab; simpl; [exact Hab |].
  apply IH. apply Qplus_le_compat; assumption.
Qed.

Lemma py_sum_mono (xs ys : list Q) : Forall2 Qle xs ys -> (py_sum xs <= py_sum ys)%Q.
Proof. intro H. apply fold_sum_mono; [exact H | apply Qle_refl]. Qed.

(** Two caps of which the first clips at least as much as the second give,
    on the same dates, values that are pointwise smaller. *)
Lemma term_rain_le (d : dict date Q) (cap cap' : option Q) (dates : list date) :
  (forall v, (capped cap v <= capped cap' v)%Q) ->
  result_rel (Forall2 Qle) (term_rain d cap dates) (term_rain d cap' dates).
Proof.
  intro H. rewrite !term_rain_capped. apply list_comp_rel.
  intros x _. destruct (dict_getitem d x) as [v | e]; simpl; [apply H | reflexivity].
Qed.

Lemma capped_le_uncapped (cap : Q) (v : Q) : (capped (Some cap) v <= capped None v)%Q.
Proof.
  unfold capped. destruct (float_truth cap); [apply py_min_le_value | apply Qle_refl].
Qed.

Lemma capped_mono (c1 c2 : Q) (v : Q) :
  float_truth c1 = true -> (c1 <= c2)%Q ->
  (capped (Some c1) v <= capped (Some c2) v)%Q.
Proof.
  unfold capped. intros -> H.
  destruct (float_truth c2); [apply py_min_mono; exact H | apply py_min_le_value].
Qed.

Lemma list_comp_ext_in {A B : Type} (f g : A -> result B) (xs : list A) :
  (forall x, In x xs -> f x = g x) -> list_comp f xs = list_comp g xs.
Proof.
  induction xs as [| x xs IH]; intro H; simpl; [reflexivity |].
  rewrite (H x (or_introl eq_refl)), IH; [reflexivity |].
  intros x' Hin. apply H. right. exact Hin.
Qed.

Lemma Forall2_combine_keys {A B C : Type} (R : B -> C -> Prop) (ks : list A) :
  forall (bs : list B) (cs : list C),
    Forall2 R bs cs ->
    Forall2 (fun a' a => fst a' = fst a /\ R (snd a') (snd a))
            (combine ks bs) (combine ks cs).
Proof.
  induction ks as [| k ks IH]; intros bs cs H; simpl; [constructor |].
  destruct H as [| b c bs cs Hbc H]; constructor; [split; [reflexivity | exact Hbc] |].
  apply IH. exact H.
Qed.

(** ** The two rainfall functions, continued *)

Section RainfallMore.

Variable get_rainfall_dict :
  forall (lat lon : Q) (dataset : string), result (dict date Q).
Variable get_rev_rainfall_dict :
  forall (lat lon : Q) (dataset : string) (end_date : date)
         (final_rev : option string), result (dict date Q * bool).
Variable listify_period :
  forall (start_date end_date : date), result (list date).

Lemma year_entry_le (d : dict date Q) (s e : date) (cap cap' : option Q) (y : Z) :
  (forall v, (capped cap v <= capped cap' v)%Q) ->
  result_rel (fun a' a => (fst a' <= fst a)%Q /\ snd a' = snd a)
             (year_entry listify_period d s e cap y)
             (year_entry listify_period d s e cap' y).
Proof.
  intro H. rewrite !year_entry_term.
  destruct (year_term listify_period s e y) as [term | err]; cbn [bind];
    [| reflexivity].
  pose proof (term_rain_le d cap cap' term H) as Hr.
  destruct (term_rain d cap term) as [r' |], (term_rain d cap' term) as [r |];
    simpl in *; try contradiction; [| exact Hr].
  split; [apply py_sum_mono; exact Hr | eapply Forall2_length; exact Hr].
Qed.

Lemma rainfall_le lat lon dataset s e0 (cap cap' : option Q) sy ey up rev :
  (forall v, (capped cap v <= capped cap' v)%Q) ->
  result_rel total_le
    (sum_period_rainfall get_rainfall_dict get_rev_rainfall_dict listify_period
       lat lon dataset s e0 cap up rev)
    (sum_period_rainfall get_rainfall_dict get_rev_rainfall_dict listify_period
       lat lon dataset s e0 cap' up rev)
  /\ result_rel history_le
       (build_historical_rainfall_dict get_rainfall_dict get_rev_rainfall_dict
          listify_period lat lon dataset s e0 cap sy ey up rev)
       (build_historical_rainfall_dict get_rainfall_dict get_rev_rainfall_dict
          listify_period lat lon dataset s e0 cap' sy ey up rev).
Proof.
  intro H. split.
  - unfold sum_period_rainfall.
    destruct (resolve_rainfall_dict get_rainfall_dict get_rev_rainfall_dict
                lat lon dataset e0 up rev) as [[[d e] fin] | err];
      cbn [bind]; [| reflexivity].
    destruct (listify_period s e) as [dates | err]; cbn [bind]; [| reflexivity].
    pose proof (term_rain_le d cap cap' dates H) as Hr.
    destruct (term_rain d cap dates) as [r' |], (term_rain d cap' dates) as [r |];
      simpl in *; try contradiction; [| exact Hr].
    unfold total_le. simpl.
    split; [apply py_sum_mono; exact Hr | split; [| reflexivity]].
    eapply Forall2_length; exact Hr.
  - rewrite !build_historical_entries.
    destruct (resolve_rainfall_dict get_rainfall_dict get_rev_rainfall_dict
                lat lon dataset e0 up rev) as [[[d e] fin] | err];
      cbn [bind]; [| reflexivity]. cbn zeta.
    pose proof (list_comp_rel _
                  (year_entry listify_period d s e cap)
                  (year_entry listify_period d s e cap')
                  (range sy (end_year_or_default s ey + 1))
                  (fun y _ => year_entry_le d s e cap cap' y H)) as Hr.
    destruct (list_comp (year_entry listify_period d s e cap) _) as [es' |],
             (list_comp (year_entry listify_period d s e cap') _) as [es |];
      simpl in *; try contradiction; [| exact Hr].
    unfold history_le. simpl. split; [| reflexivity].
    apply (Forall2_combine_keys
             (fun a' a : Q * nat => (fst a' <= fst a)%Q /\ snd a' = snd a)).
    exact Hr.
Qed.

(** X1. A cap changes neither whether a call returns or which exception it
    raises, nor the numbers of days, nor the flag: it can only lower the
    totals. *)
Theorem cap_only_lowers_totals :
  forall cap lat lon dataset start_date end_date start_year end_year
         use_prelim final_rev,
    result_rel total_le
      (sum_period_rainfall get_rainfall_dict get_rev_rainfall_dict listify_period
         lat lon dataset start_date end_date (Some cap) use_prelim final_rev)
      (sum_period_rainfall get_rainfall_dict get_rev_rainfall_dict listify_period
         lat lon dataset start_date end_date None use_prelim final_rev)
    /\ result_rel history_le
         (build_historical_rainfall_dict get_rainfall_dict get_rev_rainfall_dict
            listify_period lat lon dataset start_date end_date (Some cap)
            start_year end_year use_prelim final_rev)
         (build_historical_rainfall_dict get_rainfall_dict get_rev_rainfall_dict
            listify_period lat lon dataset start_date end_date None
            start_year end_year use_prelim final_rev).
Proof.
  intros. apply rainfall_le. intro v. apply capped_le_uncapped.
Qed.

(** X2. The totals grow with the cap: of two caps, the first not zero and at
    most the second, the first gives totals that are at most those of the
    second, for the same days and the same flag. *)
Theorem totals_grow_with_cap :
  forall cap1 cap2 lat lon dataset start_date end_date start_year end_year
         use_prelim final_rev,
    float_truth cap1 = true ->
    (cap1 <= cap2)%Q ->
    result_rel total_le
      (sum_period_rainfall get_rainfall_dict get_rev_rainfall_dict listify_period
         lat lon dataset start_date end_date (Some cap1) use_prelim final_rev)
      (sum_period_rainfall get_rainfall_dict get_rev_rainfall_dict listify_period
         lat lon dataset start_date end_date (Some cap2) use_prelim final_rev)
    /\ result_rel history_le
         (build_historical_rainfall_dict get_rainfall_dict get_rev_rainfall_dict
            listify_period lat lon dataset start_date end_date (Some cap1)
            start_year end_year use_prelim final_rev)
         (build_historical_rainfall_dict get_rainfall_dict get_rev_rainfall_dict
            listify_period lat lon dataset start_date end_date (Some cap2)
            start_year end_year use_prelim final_rev).
Proof.
  intros cap1 cap2 lat lon dataset s e sy ey up rev Htrue Hle.
  apply rainfall_le. intro v. apply capped_mono; assumption.
Qed.

(** X3. A cap that no value of the term exceeds changes nothing: the call
    returns what it returns without a cap. *)
Theorem cap_above_all_values :
  forall cap lat lon dataset start_date end_date use_prelim final_rev
         rainfall_dict effective_end is_final dates,
    resolve_rainfall_dict get_rainfall_dict get_rev_rainfall_dict
      lat lon dataset end_date use_prelim final_rev
    = Ok (rainfall_dict, effective_end, is_final) ->
    listify_period start_date effective_end = Ok dates ->
    (forall x v, In x dates -> dict_getitem rainfall_dict x = Ok v -> (v <= cap)%Q) ->
    sum_period_rainfall get_rainfall_dict get_rev_rainfall_dict listify_period
      lat lon dataset start_date end_date (Some cap) use_prelim final_rev
    = sum_period_rainfall get_rainfall_dict get_rev_rainfall_dict listify_period
        lat lon dataset start_date end_date None use_prelim final_rev.
Proof.
  intros cap lat lon dataset s e0 up rev d e fin dates Hres Hdates Hbelow.
  unfold sum_period_rainfall. rewrite Hres. cbn [bind].
  rewrite Hdates. cbn [bind].
  rewrite (term_rain_capped d (Some cap)), (term_rain_capped d None).
  rewrite (list_comp_ext_in
             (fun date => v <- dict_getitem d date ;; Ok (capped (Some cap) v))
             (fun date => v <- dict_getitem d date ;; Ok (capped None v)) dates);
    [reflexivity |].
  intros x Hin. destruct (dict_getitem d x) as [v | err] eqn:Hv; [| reflexivity].
  simpl. unfold capped. destruct (float_truth cap); [| reflexivity].
  rewrite (py_min_below v cap (Hbelow x v Hin Hv)). reflexivity.
Qed.


(** X5. The historical dict of the single year of the start date holds, under
    that year, the total and the number of days [sum_period_rainfall] returns
    for the same arguments, with the same flag; and it raises when that
    function raises. *)
Theorem single_year_history_is_period_sum :
  forall lat lon dataset start_date end_date daily_cap use_prelim final_rev
         rainfall_dict effective_end is_final,
    resolve_rainfall_dict get_rainfall_dict get_rev_rainfall_dict
      lat lon dataset end_date use_prelim final_rev
    = Ok (rainfall_dict, effective_end, is_final) ->
    date_ok start_date = true ->
    date_ok effective_end = true ->
    build_historical_rainfall_dict get_rainfall_dict get_rev_rainfall_dict
      listify_period lat lon dataset start_date end_date daily_cap
      (year start_date) None use_prelim final_rev
    = ('(total, days, flag) <-
         sum_period_rainfall get_rainfall_dict get_rev_rainfall_dict
           listify_period lat lon dataset start_date end_date daily_cap
           use_prelim final_rev ;;
       Ok ([(year start_date, (total, days))], flag)).
Proof.
  intros lat lon dataset s e0 cap up rev d e fin Hres Hs He.
  rewrite build_historical_entries. unfold sum_period_rainfall.
  rewrite Hres. cbn [bind]. cbn zeta.
  unfold end_year_or_default. rewrite range_single.
  cbn [list_comp]. unfold year_entry.
  rewrite (replace_year_same s Hs). cbn [bind].
  replace (year s + (year e - year s)) with (year e) by lia.
  rewrite (replace_year_same e He). cbn [bind].
  destruct (listify_period s e) as [dates | err]; cbn [bind]; [| reflexivity].
  destruct (term_rain d cap dates) as [rain | err]; reflexivity.
Qed.

(** X6. The historical dict raises the exception of the earliest year that
    raises: no later year is looked at and no dict is returned. *)
Theorem earliest_failing_year_raises :
  forall lat lon dataset start_date end_date daily_cap start_year end_year
         use_prelim final_rev rainfall_dict effective_end is_final y err,
    resolve_rainfall_dict get_rainfall_dict get_rev_rainfall_dict
      lat lon dataset end_date use_prelim final_rev
    = Ok (rainfall_dict, effective_end, is_final) ->
    start_year <= y <= end_year_or_default start_date end_year ->
    (forall y', start_year <= y' < y ->
                exists v, year_entry listify_period rainfall_dict start_date
                            effective_end daily_cap y' = Ok v) ->
    year_entry listify_period rainfall_dict start_date effective_end daily_cap y
    = Raise err ->
    build_historical_rainfall_dict get_rainfall_dict get_rev_rainfall_dict
      listify_period lat lon dataset start_date end_date daily_cap
      start_year end_year use_prelim final_rev
    = Raise err.
Proof.
  intros lat lon dataset s e0 cap sy ey up rev d e fin y err Hres Hy Hbefore Herr.
  rewrite build_historical_entries, Hres. cbn [bind]. cbn zeta.
  rewrite (range_app sy y (end_year_or_default s ey + 1)) by lia.
  rewrite (range_cons y) by lia.
  rewrite (list_comp_first_raise _ _ _ y err); [reflexivity | | exact Herr].
  intros y' Hin. apply In_range in Hin. apply Hbefore. exact Hin.
Qed.

(** X7. When the last year precedes [start_year] there is no year to replay:
    the call returns the empty dict with the flag, whatever the dates. *)
Theorem no_year_gives_empty_history :
  forall lat lon dataset start_date end_date daily_cap start_year end_year
         use_prelim final_rev rainfall_dict effective_end is_final,
    resolve_rainfall_dict get_rainfall_dict get_rev_rainfall_dict
      lat lon dataset end_date use_prelim final_rev
    = Ok (rainfall_dict, effective_end, is_final) ->
    end_year_or_default start_date end_year < start_year ->
    build_historical_rainfall_dict get_rainfall_dict get_rev_rainfall_dict
      listify_period lat lon dataset start_date end_date daily_cap
      start_year end_year use_prelim final_rev
    = Ok ([], is_final).
Proof.
  intros lat lon dataset s e0 cap sy ey up rev d e fin Hres Hlt.
  rewrite build_historical_entries, Hres. cbn [bind]. cbn zeta.
  rewrite range_nil by lia. reflexivity.
Qed.

(** X8. A [start_year] that [date.replace] can convert to a C int but that
    lies outside the years 1 to 9999 of [datetime.date] makes the call raise
    [ValueError] as soon as there is a year to replay. *)
Theorem start_year_out_of_calendar :
  forall lat lon dataset start_date end_date daily_cap start_year end_year
         use_prelim final_rev rainfall_dict effective_end is_final,
    resolve_rainfall_dict get_rainfall_dict get_rev_rainfall_dict
      lat lon dataset end_date use_prelim final_rev
    = Ok (rainfall_dict, effective_end, is_final) ->
    start_year <= end_year_or_default start_date end_year ->
    INT_MIN <= start_year <= INT_MAX ->
    start_year < MINYEAR \/ MAXYEAR < start_year ->
    build_historical_rainfall_dict get_rainfall_dict get_rev_rainfall_dict
      listify_period lat lon dataset start_date end_date daily_cap
      start_year end_year use_prelim final_rev
    = Raise ValueError.
Proof.
  intros lat lon dataset s e0 cap sy ey up rev d e fin Hres Hle _ Hout.
  rewrite build_historical_entries, Hres. cbn [bind]. cbn zeta.
  rewrite range_cons by lia. cbn [list_comp].
  unfold year_entry, replace_year, valid_date.
  destruct Hout as [Hlo | Hhi].
  - apply Z.leb_gt in Hlo. rewrite Hlo. reflexivity.
  - apply Z.leb_gt in Hhi. rewrite Hhi, andb_false_r. reflexivity.
Qed.

(** X9. One more year at the end appends one entry: the dict up to
    [last + 1] is the dict up to [last] followed by the entry of [last + 1],
    and the call raises what that entry raises. *)
Theorem history_grows_by_one_year :
  forall lat lon dataset start_date end_date daily_cap start_year last
         use_prelim final_rev rainfall_dict effective_end is_final yearly flag,
    resolve_rainfall_dict get_rainfall_dict get_rev_rainfall_dict
      lat lon dataset end_date use_prelim final_rev
    = Ok (rainfall_dict, effective_end, is_final) ->
    build_historical_rainfall_dict get_rainfall_dict get_rev_rainfall_dict
      listify_period lat lon dataset start_date end_date daily_cap
      start_year (Some last) use_prelim final_rev
    = Ok (yearly, flag) ->
    start_year <= last + 1 ->
    build_historical_rainfall_dict get_rainfall_dict get_rev_rainfall_dict
      listify_period lat lon dataset start_date end_date daily_cap
      start_year (Some (last + 1)) use_prelim final_rev
    = (entry <- year_entry listify_period rainfall_dict start_date effective_end
                  daily_cap (last + 1) ;;
       Ok (yearly ++ [(last + 1, entry)], flag)).
Proof.
  intros lat lon dataset s e0 cap sy last up rev d e fin yearly flag Hres H Hle.
  rewrite build_historical_entries, Hres in *. cbn [bind] in *. cbn zeta in *.
  unfold end_year_or_default in *.
  bind_inv H as entries Hentries. injection H as <- <-.
  rewrite (range_snoc sy (last + 1)) by lia.
  rewrite list_comp_app, Hentries. cbn [bind list_comp].
  destruct (year_entry listify_period d s e cap (last + 1)) as [v | err];
    cbn [bind]; [| reflexivity].
  rewrite combine_app_same; [reflexivity |].
  symmetry. eapply list_comp_length. exact Hentries.
Qed.

(** X10. Without [use_prelim] the dates enter the historical dict by their
    months and days and by the number of years between them only: two terms
    that agree on these give the same result for the same years. *)
Theorem history_ignores_base_year :
  forall lat lon dataset start_date end_date start_date' end_date' daily_cap
         start_year last final_rev,
    month start_date' = month start_date ->
    day start_date' = day start_date ->
    month end_date' = month end_date ->
    day end_date' = day end_date ->
    year end_date' - year start_date' = year end_date - year start_date ->
    build_historical_rainfall_dict get_rainfall_dict get_rev_rainfall_dict
      listify_period lat lon dataset start_date' end_date' daily_cap
      start_year (Some last) false final_rev
    = build_historical_rainfall_dict get_rainfall_dict get_rev_rainfall_dict
        listify_period lat lon dataset start_date end_date daily_cap
        start_year (Some last) false final_rev.
Proof.
  intros lat lon dataset s e s' e' cap sy last rev Hms Hds Hme Hde Hdiff.
  rewrite !build_historical_entries. unfold resolve_rainfall_dict.
  destruct (get_rainfall_dict lat lon dataset) as [d | err]; cbn [bind];
    [| reflexivity].
  cbn zeta. unfold end_year_or_default.
  rewrite (list_comp_ext (year_entry listify_period d s' e' cap)
             (year_entry listify_period d s e cap)); [reflexivity |].
  intro y. unfold year_entry, replace_year.
  rewrite Hms, Hds, Hme, Hde, Hdiff. reflexivity.
Qed.

End RainfallMore.

(** X11. Without [use_prelim], [sum_period_rainfall] reads the series at the
    dates of the term only: two providers whose series agree on these dates
    give the same result. *)
Theorem period_sum_reads_term_dates_only :
  forall (get_rainfall_dict get_rainfall_dict' :
            Q -> Q -> string -> result (dict date Q))
         get_rev_rainfall_dict listify_period
         lat lon dataset start_date end_date daily_cap final_rev
         rainfall_dict rainfall_dict' dates,
    get_rainfall_dict lat lon dataset = Ok rainfall_dict ->
    get_rainfall_dict' lat lon dataset = Ok rainfall_dict' ->
    listify_period start_date end_date = Ok dates ->
    (forall x, In x dates ->
               dict_get date_eqb rainfall_dict x = dict_get date_eqb rainfall_dict' x) ->
    sum_period_rainfall get_rainfall_dict get_rev_rainfall_dict listify_period
      lat lon dataset start_date end_date daily_cap false final_rev
    = sum_period_rainfall get_rainfall_dict' get_rev_rainfall_dict listify_period
        lat lon dataset start_date end_date daily_cap false final_rev.
Proof.
  intros G G' R L lat lon dataset s e cap rev d d' dates HG HG' HL Hagree.
  unfold sum_period_rainfall, resolve_rainfall_dict.
  rewrite HG, HG'. cbn [bind]. rewrite HL. cbn [bind].
  rewrite (term_rain_capped d), (term_rain_capped d').
  rewrite (list_comp_ext_in
             (fun date => v <- dict_getitem d date ;; Ok (capped cap v))
             (fun date => v <- dict_getitem d' date ;; Ok (capped cap v)) dates);
    [reflexivity |].
  intros x Hin. unfold dict_getitem. rewrite (Hagree x Hin). reflexivity.
Qed.

(** ** The two period tables, continued *)



Section PeriodMore.

Context {DataFrame : Type}.
Variable df_slice : DataFrame -> string -> string -> result DataFrame.
Variable df_column : DataFrame -> string -> result (list cell).


Lemma period_rows_cons (reduce : list cell -> cell) (df : DataFrame)
      (ps pe : date) (yrs : Z) (peril : string) :
  0 <= yrs ->
  (vs <- list_comp (year_value df_slice df_column reduce df ps pe peril)
           (range (year ps - (yrs + 1)) (year ps)) ;;
   Ok (combine (range (year ps - (yrs + 1)) (year ps)) vs))
  = (v <- year_value df_slice df_column reduce df ps pe peril
            (year ps - (yrs + 1)) ;;
     rest <- (vs <- list_comp (year_value df_slice df_column reduce df ps pe peril)
                      (range (year ps - yrs) (year ps)) ;;
              Ok (combine (range (year ps - yrs) (year ps)) vs)) ;;
     Ok ((year ps - (yrs + 1), v) :: rest)).
Proof.
  intro H. rewrite (range_cons (year ps - (yrs + 1))) by lia.
  replace (year ps - (yrs + 1) + 1) with (year ps - yrs) by lia.
  cbn [list_comp].
  destruct (year_value df_slice df_column reduce df ps pe peril _); cbn [bind];
    [| reflexivity].
  destruct (list_comp _ _); reflexivity.
Qed.

(** X13. One more year of lookback puts one row in front and leaves the
    others as they are: the table for [yrs + 1] is the row of the year
    [ps.year - (yrs + 1)] followed by the table for [yrs], for the sums and
    for the means. *)
Theorem lookback_grows_in_front :
  forall df ps pe yrs peril,
    0 <= yrs ->
    sum_period_df df_slice df_column df ps pe (yrs + 1) peril
    = (v <- year_value df_slice df_column series_sum df ps pe peril
              (year ps - (yrs + 1)) ;;
       rest <- sum_period_df df_slice df_column df ps pe yrs peril ;;
       Ok ((year ps - (yrs + 1), v) :: rest))
    /\ avg_period_df df_slice df_column df ps pe (yrs + 1) peril
       = (v <- year_value df_slice df_column series_mean df ps pe peril
                 (year ps - (yrs + 1)) ;;
          rest <- avg_period_df df_slice df_column df ps pe yrs peril ;;
          Ok ((year ps - (yrs + 1), v) :: rest)).
Proof.
  intros df ps pe yrs peril H.
  rewrite !sum_period_df_rows, !avg_period_df_rows.
  split; apply period_rows_cons; exact H.
Qed.

(** X14. With no year of lookback, [yrs] zero or negative, both functions
    return the empty table without reading the frame: a column that does not
    exist goes unnoticed. *)
Theorem no_lookback_gives_empty_table :
  forall df ps pe yrs peril,
    yrs <= 0 ->
    sum_period_df df_slice df_column df ps pe yrs peril = Ok []
    /\ avg_period_df df_slice df_column df ps pe yrs peril = Ok [].
Proof.
  intros df ps pe yrs peril H.
  rewrite sum_period_df_rows, avg_period_df_rows.
  rewrite range_nil by lia. split; reflexivity.
Qed.

(** X15. Both functions raise the exception of the earliest lookback year
    whose slice or whose column lookup raises, a [KeyError] for a column that
    does not exist: no table is returned. *)
Theorem earliest_failing_lookback_year_raises :
  forall df ps pe yrs peril y err,
    year ps - yrs <= y < year ps ->
    (forall y', year ps - yrs <= y' < y ->
                exists chunk column,
                  df_slice df (fst (period_bounds ps pe y'))
                           (snd (period_bounds ps pe y')) = Ok chunk
                  /\ df_column chunk peril = Ok column) ->
    df_slice df (fst (period_bounds ps pe y)) (snd (period_bounds ps pe y))
    = Raise err
    \/ (exists chunk,
          df_slice df (fst (period_bounds ps pe y)) (snd (period_bounds ps pe y))
          = Ok chunk
          /\ df_column chunk peril = Raise err) ->
    sum_period_df df_slice df_column df ps pe yrs peril = Raise err
    /\ avg_period_df df_slice df_column df ps pe yrs peril = Raise err.
Proof.
  intros df ps pe yrs peril y err Hy Hbefore Hfail.
  assert (Hall : forall reduce,
             list_comp (year_value df_slice df_column reduce df ps pe peril)
                       (range (year ps - yrs) (year ps)) = Raise err).
  { intro reduce.
    rewrite (range_app (year ps - yrs) y (year ps)) by lia.
    rewrite (range_cons y) by lia.
    apply list_comp_first_raise.
    - intros y' Hin. apply In_range in Hin.
      destruct (Hbefore y' Hin) as (chunk & column & Hs & Hc).
      exists (reduce column). unfold year_value.
      rewrite Hs. cbn [bind]. rewrite Hc. reflexivity.
    - unfold year_value. destruct Hfail as [Hs | (chunk & Hs & Hc)].
      + rewrite Hs. reflexivity.
      + rewrite Hs. cbn [bind]. rewrite Hc. reflexivity. }
  rewrite sum_period_df_rows, avg_period_df_rows, !Hall. split; reflexivity.
Qed.

(** X16. The year of [pe] counts only through the test whether it is after
    the year of [ps]: two periods with the same start, whose ends agree on the
    month, the day and this test, give the same tables. *)
Theorem period_end_year_only_tested :
  forall df ps pe pe' yrs peril,
    month pe' = month pe ->
    day pe' = day pe ->
    (year ps <? year pe') = (year ps <? year pe) ->
    sum_period_df df_slice df_column df ps pe' yrs peril
    = sum_period_df df_slice df_column df ps pe yrs peril
    /\ avg_period_df df_slice df_column df ps pe' yrs peril
       = avg_period_df df_slice df_column df ps pe yrs peril.
Proof.
  intros df ps pe pe' yrs peril Hm Hd Hy.
  assert (Hval : forall reduce y,
             year_value df_slice df_column reduce df ps pe' peril y
             = year_value df_slice df_column reduce df ps pe peril y).
  { intros reduce y. unfold year_value, period_bounds.
    rewrite Hm, Hd, Hy. reflexivity. }
  rewrite !sum_period_df_rows, !avg_period_df_rows.
  rewrite (list_comp_ext _ _ _ (Hval series_sum)).
  rewrite (list_comp_ext _ _ _ (Hval series_mean)).
  split; reflexivity.
Qed.

End PeriodMore.

(** ** The further statements on the sample data *)

Module OnMoreSamples.

Import Sample.

Definition january (d : Z) : date := mkdate 2020 1 d.

(** The sample series with one more day, outside the first three days of
    January. *)
Definition longer_series : dict date Q := series ++ [(january 9, 30%Q)].

(** A table without the column asked for. *)
Definition snow : string := "snow"%string.

Lemma totals_grow_with_cap_witness :
  float_truth 5%Q = true
  /\ (5 <= 10)%Q
  /\ result_rel total_le
       (sum_period_rainfall (get_rainfall_dict series)
          (get_rev_rainfall_dict series false) Utils.listify_period
          0%Q 0%Q "chirps"%string (january 1) (january 3) (Some 5%Q) false None)
       (sum_period_rainfall (get_rainfall_dict series)
          (get_rev_rainfall_dict series false) Utils.listify_period
          0%Q 0%Q "chirps"%string (january 1) (january 3) (Some 10%Q) false None).
Proof.
  assert (Hle : (5 <= 10)%Q) by (unfold Qle; simpl; lia).
  split; [reflexivity | split; [exact Hle |]].
  apply (proj1 (totals_grow_with_cap (get_rainfall_dict series)
                  (get_rev_rainfall_dict series false) Utils.listify_period
                  5%Q 10%Q 0%Q 0%Q "chirps"%string (january 1) (january 3)
                  2020 None false None eq_refl Hle)).
Defined.

Lemma cap_above_all_values_witness :
  sum_period_rainfall (get_rainfall_dict series)
    (get_rev_rainfall_dict series false) Utils.listify_period
    0%Q 0%Q "chirps"%string (january 1) (january 3) (Some 12%Q) false None
  = sum_period_rainfall (get_rainfall_dict series)
      (get_rev_rainfall_dict series false) Utils.listify_period
      0%Q 0%Q "chirps"%string (january 1) (january 3) None false None.
Proof.
  apply (cap_above_all_values (get_rainfall_dict series)
           (get_rev_rainfall_dict series false) Utils.listify_period
           12%Q 0%Q 0%Q "chirps"%string (january 1) (january 3) false None
           series (january 3) true [january 1; january 2; january 3]
           eq_refl eq_refl).
  intros x v [<- | [<- | [<- | []]]] Hv; injection Hv as <-;
    unfold Qle; simpl; lia.
Defined.

Lemma single_year_history_is_period_sum_witness :
  date_ok (january 1) = true
  /\ date_ok (january 3) = true
  /\ build_historical_rainfall_dict (get_rainfall_dict series)
       (get_rev_rainfall_dict series false) Utils.listify_period
       0%Q 0%Q "chirps"%string (january 1) (january 3) (Some 10%Q)
       (year (january 1)) None false None
     = ('(total, days, flag) <-
          sum_period_rainfall (get_rainfall_dict series)
            (get_rev_rainfall_dict series false) Utils.listify_period
            0%Q 0%Q "chirps"%string (january 1) (january 3) (Some 10%Q)
            false None ;;
        Ok ([(year (january 1), (total, days))], flag)).
Proof.
  split; [reflexivity | split; [reflexivity |]].
  apply (single_year_history_is_period_sum (get_rainfall_dict series)
           (get_rev_rainfall_dict series false) Utils.listify_period
           0%Q 0%Q "chirps"%string (january 1) (january 3) (Some 10%Q)
           false None series (january 3) true eq_refl eq_refl eq_refl).
Defined.

(** The wide series holds the first days of June up to 2002: the year 2003
    is the first to miss a date. *)
Lemma earliest_failing_year_raises_witness :
  build_historical_rainfall_dict (get_rainfall_dict wide_series)
    (get_rev_rainfall_dict series false) Utils.listify_period
    0%Q 0%Q "chirps"%string (mkdate 2002 6 1) (mkdate 2002 6 10) None
    2000 (Some 2004) false None
  = Raise (KeyError (DateKey (mkdate 2003 6 1))).
Proof.
  apply (earliest_failing_year_raises (get_rainfall_dict wide_series)
           (get_rev_rainfall_dict series false) Utils.listify_period
           0%Q 0%Q "chirps"%string (mkdate 2002 6 1) (mkdate 2002 6 10) None
           2000 (Some 2004) false None wide_series (mkdate 2002 6 10) true
           2003 (KeyError (DateKey (mkdate 2003 6 1))) eq_refl).
  - simpl. lia.
  - intros y' Hy'.
    assert (Hcases : y' = 2000 \/ y' = 2001 \/ y' = 2002) by lia.
    exists (10%Q, 10%nat).
    destruct Hcases as [-> | [-> | ->]]; vm_compute; reflexivity.
  - vm_compute. reflexivity.
Defined.

Lemma no_year_gives_empty_history_witness :
  end_year_or_default (january 1) None < 2021
  /\ build_historical_rainfall_dict (get_rainfall_dict series)
       (get_rev_rainfall_dict series false) Utils.listify_period
       0%Q 0%Q "chirps"%string (january 1) (january 3) None
       2021 None false None
     = Ok ([], true).
Proof.
  assert (Hlt : end_year_or_default (january 1) None < 2021) by (simpl; lia).
  split; [exact Hlt |].
  apply (no_year_gives_empty_history (get_rainfall_dict series)
           (get_rev_rainfall_dict series false) Utils.listify_period
           0%Q 0%Q "chirps"%string (january 1) (january 3) None
           2021 None false None series (january 3) true eq_refl Hlt).
Defined.

Lemma start_year_out_of_calendar_witness :
  build_historical_rainfall_dict (get_rainfall_dict series)
    (get_rev_rainfall_dict series false) Utils.listify_period
    0%Q 0%Q "chirps"%string (january 1) (january 3) None
    0 (Some 1) false None
  = Raise ValueError.
Proof.
  apply (start_year_out_of_calendar (get_rainfall_dict series)
           (get_rev_rainfall_dict series false) Utils.listify_period
           0%Q 0%Q "chirps"%string (january 1) (january 3) None
           0 (Some 1) false None series (january 3) true eq_refl).
  - simpl. lia.
  - unfold INT_MIN, INT_MAX. lia.
  - left. unfold MINYEAR. lia.
Defined.

Lemma history_grows_by_one_year_witness :
  build_historical_rainfall_dict (get_rainfall_dict wide_series)
    (get_rev_rainfall_dict series false) Utils.listify_period
    0%Q 0%Q "chirps"%string (mkdate 2002 6 1) (mkdate 2002 6 10) None
    2000 (Some (2000 + 1)) false None
  = (entry <- year_entry Utils.listify_period wide_series
                (mkdate 2002 6 1) (mkdate 2002 6 10) None (2000 + 1) ;;
     Ok ([(2000, (10%Q, 10%nat))] ++ [(2000 + 1, entry)], true)).
Proof.
  assert (Hcall :
           build_historical_rainfall_dict (get_rainfall_dict wide_series)
             (get_rev_rainfall_dict series false) Utils.listify_period
             0%Q 0%Q "chirps"%string (mkdate 2002 6 1) (mkdate 2002 6 10) None
             2000 (Some 2000) false None
           = Ok ([(2000, (10%Q, 10%nat))], true))
    by (vm_compute; reflexivity).
  apply (history_grows_by_one_year (get_rainfall_dict wide_series)
           (get_rev_rainfall_dict series false) Utils.listify_period
           0%Q 0%Q "chirps"%string (mkdate 2002 6 1) (mkdate 2002 6 10) None
           2000 2000 false None wide_series (mkdate 2002 6 10) true
           [(2000, (10%Q, 10%nat))] true eq_refl Hcall).
  lia.
Defined.

Lemma history_ignores_base_year_witness :
  build_historical_rainfall_dict (get_rainfall_dict wide_series)
    (get_rev_rainfall_dict series false) Utils.listify_period
    0%Q 0%Q "chirps"%string (mkdate 2002 6 1) (mkdate 2002 6 10) None
    2000 (Some 2002) false None
  = build_historical_rainfall_dict (get_rainfall_dict wide_series)
      (get_rev_rainfall_dict series false) Utils.listify_period
      0%Q 0%Q "chirps"%string (mkdate 2020 6 1) (mkdate 2020 6 10) None
      2000 (Some 2002) false None.
Proof.
  apply (history_ignores_base_year (get_rainfall_dict wide_series)
           (get_rev_rainfall_dict series false) Utils.listify_period
           0%Q 0%Q "chirps"%string (mkdate 2020 6 1) (mkdate 2020 6 10)
           (mkdate 2002 6 1) (mkdate 2002 6 10) None 2000 2002 None
           eq_refl eq_refl eq_refl eq_refl eq_refl).
Defined.

Lemma period_sum_reads_term_dates_only_witness :
  sum_period_rainfall (get_rainfall_dict series)
    (get_rev_rainfall_dict series false) Utils.listify_period
    0%Q 0%Q "chirps"%string (january 1) (january 3) None false None
  = sum_period_rainfall (get_rainfall_dict longer_series)
      (get_rev_rainfall_dict series false) Utils.listify_period
      0%Q 0%Q "chirps"%string (january 1) (january 3) None false None.
Proof.
  apply (period_sum_reads_term_dates_only (get_rainfall_dict series)
           (get_rainfall_dict longer_series)
           (get_rev_rainfall_dict series false) Utils.listify_period
           0%Q 0%Q "chirps"%string (january 1) (january 3) None None
           series longer_series [january 1; january 2; january 3]
           eq_refl eq_refl eq_refl).
  intros x [<- | [<- | [<- | []]]]; reflexivity.
Defined.

Lemma lookback_grows_in_front_witness :
  0 <= 2
  /\ sum_period_df DenseTable.slice DenseTable.column june_table
       (mkdate 2020 6 1) (mkdate 2020 6 10) (2 + 1) "rain"%string
     = (v <- year_value DenseTable.slice DenseTable.column series_sum june_table
               (mkdate 2020 6 1) (mkdate 2020 6 10) "rain"%string
               (year (mkdate 2020 6 1) - (2 + 1)) ;;
        rest <- sum_period_df DenseTable.slice DenseTable.column june_table
                  (mkdate 2020 6 1) (mkdate 2020 6 10) 2 "rain"%string ;;
        Ok ((year (mkdate 2020 6 1) - (2 + 1), v) :: rest)).
Proof.
  assert (H : 0 <= 2) by lia.
  split; [exact H |].
  apply (proj1 (lookback_grows_in_front DenseTable.slice DenseTable.column
                  june_table (mkdate 2020 6 1) (mkdate 2020 6 10) 2
                  "rain"%string H)).
Defined.

Lemma no_lookback_gives_empty_table_witness :
  0 <= 0
  /\ sum_period_df DenseTable.slice DenseTable.column june_table
       (mkdate 2020 6 1) (mkdate 2020 6 10) 0 snow
     = Ok [].
Proof.
  assert (H : 0 <= 0) by lia.
  split; [exact H |].
  apply (proj1 (no_lookback_gives_empty_table DenseTable.slice DenseTable.column
                  june_table (mkdate 2020 6 1) (mkdate 2020 6 10) 0 snow H)).
Defined.

Lemma earliest_failing_lookback_year_raises_witness :
  sum_period_df DenseTable.slice DenseTable.column june_table
    (mkdate 2020 6 1) (mkdate 2020 6 10) 1 snow
  = Raise (KeyError (StrKey snow))
  /\ avg_period_df DenseTable.slice DenseTable.column june_table
       (mkdate 2020 6 1) (mkdate 2020 6 10) 1 snow
     = Raise (KeyError (StrKey snow)).
Proof.
  apply (earliest_failing_lookback_year_raises DenseTable.slice DenseTable.column
           june_table (mkdate 2020 6 1) (mkdate 2020 6 10) 1 snow 2019
           (KeyError (StrKey snow))).
  - simpl. lia.
  - intros y' Hy'. simpl in Hy'. lia.
  - right. eexists. split; reflexivity.
Defined.

Lemma period_end_year_only_tested_witness :
  sum_period_df DenseTable.slice DenseTable.column june_table
    (mkdate 2019 12 25) (mkdate 2022 1 5) 1 "rain"%string
  = sum_period_df DenseTable.slice DenseTable.column june_table
      (mkdate 2019 12 25) (mkdate 2020 1 5) 1 "rain"%string.
Proof.
  apply (proj1 (period_end_year_only_tested DenseTable.slice DenseTable.column
                  june_table (mkdate 2019 12 25) (mkdate 2020 1 5)
                  (mkdate 2022 1 5) 1 "rain"%string eq_refl eq_refl eq_refl)).
Defined.

End OnMoreSamples.
